(** * MongoDB_Demo: [Mongodb_manager.py] and [connect_mongo.py]

    A shallow embedding of the [MongoDBManager] class (the validation
    guards, the singleton client lifecycle, the CRUD pass-through
    methods), of the script at the end of its module and of
    [insert_data_mongo], followed by the properties the specification
    states about them and by further properties of the code. *)

From Stdlib Require Import List Arith NArith Bool Lia String Ascii DecimalString.
Import ListNotations.

Local Open Scope N_scope.

(** ** Python values *)

(** A Python [str] is a sequence of Unicode code points; [len] is the
    number of code points. *)
Definition str := list N.

(** [len(s)] *)
Definition len {A : Type} (s : list A) : nat := List.length s.

(** Text of a source literal (ASCII only). *)
Definition lit (s : string) : str := map N_of_ascii (list_ascii_of_string s).

(** The values whose shape the code inspects ([None], [str], [dict],
    [list]); every other object is [PObj] with the name of its class and
    its truth value. *)
#[warnings="-register-all"]
Inductive pyval : Type :=
| PNone
| PStr (s : str)
| PDict (items : list (pyval * pyval))
| PList (elems : list pyval)
| PObj (type_name : str) (truth : bool).

(** [type(v).__name__] *)
Definition type_name (v : pyval) : str :=
  match v with
  | PNone => lit "NoneType"
  | PStr _ => lit "str"
  | PDict _ => lit "dict"
  | PList _ => lit "list"
  | PObj n _ => n
  end.

(** Truth value testing, as [if v:] and [v or w] do it. *)
Definition truthy (v : pyval) : bool :=
  match v with
  | PNone => false
  | PStr s => negb (Nat.eqb (len s) 0)
  | PDict items => negb (Nat.eqb (len items) 0)
  | PList elems => negb (Nat.eqb (len elems) 0)
  | PObj _ b => b
  end.

(** [a or b] *)
Definition py_or (a b : pyval) : pyval := if truthy a then a else b.

(** ** str methods *)

(** [str.isspace] on one code point (CPython's [_PyUnicode_IsWhitespace]). *)
Definition isspace (c : N) : bool :=
  ((0x09 <=? c) && (c <=? 0x0D)) || ((0x1C <=? c) && (c <=? 0x20))
  || (c =? 0x85) || (c =? 0xA0) || (c =? 0x1680)
  || ((0x2000 <=? c) && (c <=? 0x200A))
  || (c =? 0x2028) || (c =? 0x2029) || (c =? 0x202F) || (c =? 0x205F)
  || (c =? 0x3000).

Fixpoint lstrip (s : str) : str :=
  match s with
  | [] => []
  | c :: rest => if isspace c then lstrip rest else s
  end.

Definition rstrip (s : str) : str := rev (lstrip (rev s)).

(** [s.strip()] *)
Definition strip (s : str) : str := rstrip (lstrip s).

(** [s.startswith(prefix)] *)
Fixpoint startswith (s prefix : str) : bool :=
  match prefix, s with
  | [], _ => true
  | _ :: _, [] => false
  | p :: prefix', c :: s' => (c =? p) && startswith s' prefix'
  end.

(** [sub in s]: substring test. *)
Fixpoint str_in (sub s : str) : bool :=
  startswith s sub ||
  match s with
  | [] => false
  | _ :: s' => str_in sub s'
  end.

(** ** Exceptions *)

Inductive exn_class : Type :=
| Exception
| TypeError
| ValueError
| RuntimeError
| PyMongoError
| ConnectionFailure.

(** An f-string: literal text and interpolated values. *)
Inductive piece : Type :=
| Text (s : str)
| Value (v : pyval).

Definition message := list piece.

Definition txt (s : string) : piece := Text (lit s).

(** An exception object: its class and the text [str(e)] yields. *)
Record exn : Type := mkExn { exn_cls : exn_class; exn_str : message }.

Definition exn_class_eqb (a b : exn_class) : bool :=
  match a, b with
  | Exception, Exception | TypeError, TypeError | ValueError, ValueError
  | RuntimeError, RuntimeError | PyMongoError, PyMongoError
  | ConnectionFailure, ConnectionFailure => true
  | _, _ => false
  end.

(** The base class, [None] for the root. *)
Definition base (c : exn_class) : option exn_class :=
  match c with
  | Exception => None
  | ConnectionFailure => Some PyMongoError
  | _ => Some Exception
  end.

(** [issubclass(c, d)]; the hierarchy is two levels deep. *)
Definition issubclass (c d : exn_class) : bool :=
  exn_class_eqb c d ||
  match base c with
  | None => false
  | Some b =>
      exn_class_eqb b d ||
      match base b with
      | None => false
      | Some b' => exn_class_eqb b' d
      end
  end.

Inductive outcome (A : Type) : Type :=
| Ok (a : A)
| Raise (e : exn).
Arguments Ok {A} a.
Arguments Raise {A} e.

(** ** Validation guards (pure) *)

Definition _validate_connection_string (connection_string : pyval) : outcome unit :=
  match connection_string with
  | PStr s =>
      match strip s with
      | [] => Raise (mkExn ValueError [txt "Connection string cannot be empty or whitespace"])
      | _ :: _ =>
          if negb (startswith s (lit "mongodb://") || startswith s (lit "mongodb+srv://"))
          then Raise (mkExn ValueError
                        [txt "Connection string must start with 'mongodb://' or 'mongodb+srv://'"])
          else Ok tt
      end
  | _ => Raise (mkExn TypeError [txt "Connection string must be a string, got ";
                                 Text (type_name connection_string)])
  end.

Definition invalid_chars : list str :=
  [lit "~"; lit "\"; lit "."; lit " "; [0x22%N]; lit "'"; lit "$"; lit "#";
   lit "%"; lit "+"; lit "()"; lit "*"].

(** The [for char in invalid_chars] loop of [_validate_name]. *)
Fixpoint check_invalid_chars (chars : list str) (name name_type : str) : outcome unit :=
  match chars with
  | [] => Ok tt
  | char :: rest =>
      if str_in char name
      then Raise (mkExn ValueError
                    [Text name_type; txt " name cannot contain '"; Text char; txt "'"])
      else check_invalid_chars rest name name_type
  end.

Definition _validate_name (name : pyval) (name_type : str) : outcome unit :=
  match name with
  | PStr s =>
      match strip s with
      | [] => Raise (mkExn ValueError [Text name_type; txt " name cannot be empty or whitespace"])
      | _ :: _ =>
          if (64 <? len s)%nat
          then Raise (mkExn ValueError [Text name_type; txt " name cannot exceed 64 characters"])
          else check_invalid_chars invalid_chars s name_type
      end
  | _ => Raise (mkExn TypeError [Text name_type; txt " name must be a string, got ";
                                 Text (type_name name)])
  end.

(** ** The collaborators

    Everything the class calls but does not define: the pymongo driver,
    [dotenv], [os.environ], [json.dumps] and the stream behind [print].
    [World] is whatever lies outside the class (servers, sockets,
    environment, [sys.stdout], the documents the driver mutates in
    place); every call may change it, and every call may raise. *)

Record InsertOneResult : Type :=
  { one_acknowledged : bool; inserted_id : pyval }.

Record InsertManyResult : Type :=
  { many_acknowledged : bool; inserted_ids : list pyval }.

Class Collaborators : Type :=
  { World : Type;
    Client : Type;          (* pymongo.MongoClient *)
    Database : Type;        (* pymongo.database.Database *)
    Collection : Type;      (* pymongo.collection.Collection *)
    Cursor : Type;
    UpdateResult : Type;
    DeleteResult : Type;
    load_dotenv : World -> World;
    os_getenv : str -> World -> option str;
    json_dumps : pyval -> World -> outcome str;
    (* the exception [print] raises for this line on [sys.stdout] as it
       is now (a closed stream, text its encoding cannot take), if any *)
    print_error : message -> World -> option exn;
    MongoClient : pyval -> World -> outcome Client * World;
    admin_command_ping : Client -> World -> outcome unit * World;
    MongoClient_close : Client -> World -> outcome unit * World;
    MongoClient_getitem : Client -> pyval -> outcome Database;
    Database_getitem : Database -> pyval -> outcome Collection;
    Collection_insert_one : Collection -> pyval -> World -> outcome InsertOneResult * World;
    Collection_insert_many : Collection -> pyval -> World -> outcome InsertManyResult * World;
    Collection_find_one : Collection -> pyval -> World -> outcome pyval * World;
    Collection_find : Collection -> pyval -> World -> outcome Cursor * World;
    Collection_update_one : Collection -> pyval -> pyval -> World -> outcome UpdateResult * World;
    Collection_delete_one : Collection -> pyval -> World -> outcome DeleteResult * World }.

Inductive level : Type := INFO | ERROR.

Section Manager.
Context {C : Collaborators}.

(** The process: the class attribute [_client], what [logging] and
    [print] have emitted so far, and the outside world. *)
Record state : Type :=
  { _client : option Client;
    log : list (level * message);
    stdout : list message;
    world : World }.

(** Statements run on the state and end normally or by raising; what
    was done before a [raise] stays done. *)
Definition M (A : Type) : Type := state -> outcome A * state.

Definition ret {A} (a : A) : M A := fun s => (Ok a, s).

Definition bind {A B} (m : M A) (k : A -> M B) : M B :=
  fun s =>
    match m s with
    | (Ok a, s') => k a s'
    | (Raise e, s') => (Raise e, s')
    end.

Definition raise {A} (e : exn) : M A := fun s => (Raise e, s).

(** [try: body except (classes) as e: handler e] *)
Definition try_except {A} (body : M A) (classes : list exn_class)
           (handler : exn -> M A) : M A :=
  fun s =>
    match body s with
    | (Ok a, s') => (Ok a, s')
    | (Raise e, s') =>
        if existsb (issubclass (exn_cls e)) classes
        then handler e s'
        else (Raise e, s')
    end.

Definition get_client : M (option Client) := fun s => (Ok (_client s), s).

Definition set_client (c : option Client) : M unit :=
  fun s => (Ok tt, {| _client := c; log := log s; stdout := stdout s; world := world s |}).

Definition set_world (s : state) (w : World) : state :=
  {| _client := _client s; log := log s; stdout := stdout s; world := w |}.

(** A statement of a collaborator. *)
Definition call {A} (f : World -> outcome A * World) : M A :=
  fun s => let (r, w) := f (world s) in (r, set_world s w).

(** A collaborator that only reads the world. *)
Definition ask {A} (f : World -> A) : M A := fun s => (Ok (f (world s)), s).

(** A pure computation that may raise. *)
Definition pure {A} (r : outcome A) : M A := fun s => (r, s).

Definition logging (l : level) (m : message) : M unit :=
  fun s => (Ok tt, {| _client := _client s; log := log s ++ [(l, m)];
                      stdout := stdout s; world := world s |}).

(** [print(m)]: the line is written, or the write raises. *)
Definition print (m : message) : M unit :=
  fun s =>
    match print_error m (world s) with
    | Some e => (Raise e, s)
    | None => (Ok tt, {| _client := _client s; log := log s;
                         stdout := stdout s ++ [m]; world := world s |})
    end.

End Manager.

Declare Scope py_scope.
Delimit Scope py_scope with py.
Notation "x <- m ;; k" := (bind m (fun x => k))
  (at level 61, m at next level, right associativity) : py_scope.
Notation "m ;; k" := (bind m (fun _ => k))
  (at level 61, right associativity) : py_scope.
Local Open Scope py_scope.

Section Methods.
Context {C : Collaborators}.

(** [connection_string or os.getenv("MONGO_DB_CONNECTION_STRING")];
    [os.getenv] gives [None] for a variable that is not set. *)
Definition resolve (connection_string : pyval) (w : World) : pyval :=
  py_or connection_string
        (match os_getenv (lit "MONGO_DB_CONNECTION_STRING") w with
         | Some v => PStr v
         | None => PNone
         end).

Definition initialize_client (connection_string : pyval) : M unit :=
  c <- get_client ;;
  match c with
  | Some _ =>
      logging INFO [txt "MongoDB client already initialized."]
  | None =>
      call (fun w => (Ok tt, load_dotenv w)) ;;
      conn_str <- ask (resolve connection_string) ;;
      pure (_validate_connection_string conn_str) ;;
      try_except
        (cl <- call (MongoClient conn_str) ;;
         set_client (Some cl) ;;
         call (admin_command_ping cl) ;;
         logging INFO [txt "MongoDB client initialized successfully."])
        [ConnectionFailure; PyMongoError]
        (fun e =>
           logging ERROR
             (txt "FATAL: MongoDB connection failed during initialization: " :: exn_str e) ;;
           set_client None ;;
           raise e)
  end.

(** [if cls._client:] tests the truth value of the attribute: [None]
    is false, and a [MongoClient] object, which defines neither
    [__bool__] nor [__len__], is true. *)
Definition close_client : M unit :=
  c <- get_client ;;
  match c with
  | Some cl =>
      call (MongoClient_close cl) ;;
      set_client None ;;
      logging INFO [txt "MongoDB client closed."]
  | None => ret tt
  end.

(** An instance: the attributes [__init__] binds. *)
Record MongoDBManager : Type :=
  { db_name : pyval;
    collection_name : pyval;
    db : Database;
    collection : Collection }.

Definition __init__ (db_name collection_name : pyval) : M MongoDBManager :=
  c <- get_client ;;
  match c with
  | None =>
      raise (mkExn RuntimeError
               [txt "MongoDB client not initialized. Call initialize_client() first."])
  | Some cl =>
      pure (_validate_name db_name (lit "Database")) ;;
      pure (_validate_name collection_name (lit "Collection")) ;;
      db <- pure (MongoClient_getitem cl db_name) ;;
      collection <- pure (Database_getitem db collection_name) ;;
      logging INFO [txt "MongoDBManager instance created DB: '"; Value db_name;
                    txt "', Collection: '"; Value collection_name; txt "'"] ;;
      ret {| db_name := db_name; collection_name := collection_name;
             db := db; collection := collection |}
  end.

(** The summary both insertion branches print after the driver call. *)
Definition print_created (banner : string) (self : MongoDBManager) (data : pyval) : M unit :=
  print [txt banner] ;;
  print [txt "Database: "; Value (db_name self)] ;;
  print [txt "Collection: "; Value (collection_name self)] ;;
  print [txt "Created Data:"] ;;
  rendering <- (fun s => (json_dumps data (world s), s)) ;;
  print [Text rendering].

(** Returns the pair [(bool, Any)]. *)
Definition insert_document (self : MongoDBManager) (data : pyval) : M (bool * pyval) :=
  try_except
    (match data with
     | PDict _ =>
         result <- call (Collection_insert_one (collection self) data) ;;
         print_created "=== SINGLE DOCUMENT INSERTED ===" self data ;;
         ret (one_acknowledged result, inserted_id result)
     | PList _ =>
         result <- call (Collection_insert_many (collection self) data) ;;
         print_created "=== MULTIPLE DOCUMENTS INSERTION ===" self data ;;
         ret (many_acknowledged result, PList (inserted_ids result))
     | _ =>
         print [txt "Error: Data must be a dictionary or list of dictionaries"] ;;
         ret (false, PNone)
     end)
    [Exception]
    (fun e =>
       logging ERROR (txt "Error inserting data: " :: exn_str e) ;;
       print (txt "Error inserting data: " :: exn_str e) ;;
       ret (false, PNone)).

Definition find_one (self : MongoDBManager) (filter_dict : pyval) : M pyval :=
  call (Collection_find_one (collection self) filter_dict).

Definition find_many (self : MongoDBManager) (filter_dict : pyval) : M Cursor :=
  call (Collection_find (collection self) (py_or filter_dict (PDict []))).

Definition update_one (self : MongoDBManager) (filter_dict update_dict : pyval)
  : M UpdateResult :=
  call (Collection_update_one (collection self) filter_dict update_dict).

Definition delete_one (self : MongoDBManager) (filter_dict : pyval) : M DeleteResult :=
  call (Collection_delete_one (collection self) filter_dict).

End Methods.

(** ** The specification's vocabulary *)

(** The reserved characters as the specification lists them: tilde,
    backslash, dot, space, double quote, single quote, dollar, hash,
    percent, plus, the two parentheses and the asterisk. *)
Definition spec_reserved_chars : str :=
  lit "~\. " ++ [0x22] ++ lit "'$#%+()*".

(** Empty or made of whitespace only: what [not name.strip()] detects. *)
Definition all_whitespace (s : str) : bool := forallb isspace s.

(** The specification's [InvalidArgument] is the code's [TypeError] or
    [ValueError]; [IllegalState] is [RuntimeError]; [ConnectionError] is
    what [initialize_client] catches, [ConnectionFailure] and the other
    [PyMongoError]s. *)
Definition InvalidArgument (e : exn) : Prop :=
  exn_cls e = TypeError \/ exn_cls e = ValueError.

Definition IllegalState (e : exn) : Prop := exn_cls e = RuntimeError.

Definition ConnectionError (e : exn) : Prop :=
  existsb (issubclass (exn_cls e)) [ConnectionFailure; PyMongoError] = true.

(** [sys.stdout] takes each of the lines. *)
Definition printable {C : Collaborators} (w : World) (lines : list message) : Prop :=
  forall m, In m lines -> print_error m w = None.

(** [name] with every parenthesis replaced by the letter [x]. *)
Definition without_parens (name : str) : str :=
  map (fun c => if (c =? 0x28) || (c =? 0x29) then 0x78 else c) name.

(** What the [except Exception] handler of [insert_document] leaves
    behind: one log record and one line of output. *)
Definition insert_failed {C : Collaborators} (e : exn) (s : state) : state :=
  {| _client := _client s;
     log := log s ++ [(ERROR, txt "Error inserting data: " :: exn_str e)];
     stdout := stdout s ++ [txt "Error inserting data: " :: exn_str e];
     world := world s |}.

(** What the handler leaves behind when its own [print] raises: the log
    record only. *)
Definition insert_logged {C : Collaborators} (e : exn) (s : state) : state :=
  {| _client := _client s;
     log := log s ++ [(ERROR, txt "Error inserting data: " :: exn_str e)];
     stdout := stdout s;
     world := world s |}.

(** ** A test double for the collaborators

    An in-memory store used to run the methods on concrete inputs: the
    server is up or down, clients are numbered in the order they are
    created, and a write appends to [stored]. *)
Module Fake.

Record sim : Type :=
  { server_up : bool;
    environ : option str;      (* MONGO_DB_CONNECTION_STRING in os.environ *)
    dotenv_file : option str;  (* the same key in .env *)
    created : nat;             (* clients created so far *)
    closed : list nat;
    stored : list pyval }.

Definition str_eqb (a b : str) : bool :=
  if list_eq_dec N.eq_dec a b then true else false.

Definition down : exn :=
  mkExn ConnectionFailure [txt "localhost:27017: [Errno 111] Connection refused"].

Definition ObjectId : pyval := PObj (lit "ObjectId") true.

Definition put (w : sim) (docs : list pyval) : sim :=
  {| server_up := server_up w; environ := environ w; dotenv_file := dotenv_file w;
     created := created w; closed := closed w; stored := stored w ++ docs |}.

Definition guarded {A} (w : sim) (r : A) (w' : sim) : outcome A * sim :=
  if server_up w then (Ok r, w') else (Raise down, w).

#[export] Instance collaborators : Collaborators :=
  {| World := sim;
     Client := nat;
     Database := pyval;
     Collection := pyval * pyval;
     Cursor := list pyval;
     UpdateResult := nat;
     DeleteResult := nat;
     load_dotenv w :=
       match environ w with
       | Some _ => w
       | None =>
           {| server_up := server_up w; environ := dotenv_file w;
              dotenv_file := dotenv_file w; created := created w;
              closed := closed w; stored := stored w |}
       end;
     os_getenv key w :=
       if str_eqb key (lit "MONGO_DB_CONNECTION_STRING") then environ w else None;
     json_dumps v _ := Ok (type_name v);
     print_error _ _ := None;
     MongoClient _ w :=
       (Ok (created w),
        {| server_up := server_up w; environ := environ w;
           dotenv_file := dotenv_file w; created := S (created w);
           closed := closed w; stored := stored w |});
     admin_command_ping _ w := guarded w tt w;
     MongoClient_close c w :=
       (Ok tt,
        {| server_up := server_up w; environ := environ w;
           dotenv_file := dotenv_file w; created := created w;
           closed := c :: closed w; stored := stored w |});
     MongoClient_getitem _ name := Ok name;
     Database_getitem d name := Ok (d, name);
     Collection_insert_one _ doc w :=
       guarded w {| one_acknowledged := true; inserted_id := ObjectId |} (put w [doc]);
     Collection_insert_many _ docs w :=
       match docs with
       | PList (d :: ds) =>
           guarded w {| many_acknowledged := true;
                        inserted_ids := map (fun _ => ObjectId) (d :: ds) |}
                   (put w (d :: ds))
       | _ => (Raise (mkExn TypeError [txt "documents must be a non-empty list"]), w)
       end;
     Collection_find_one _ _ w := guarded w (hd PNone (stored w)) w;
     Collection_find _ _ w := guarded w (stored w) w;
     Collection_update_one _ _ _ w := guarded w (Nat.min 1 (len (stored w))) w;
     Collection_delete_one _ _ w :=
       guarded w (Nat.min 1 (len (stored w)))
               {| server_up := server_up w; environ := environ w;
                  dotenv_file := dotenv_file w; created := created w;
                  closed := closed w; stored := tl (stored w) |} |}.

Definition boot (up : bool) (env : option str) : sim :=
  {| server_up := up; environ := env; dotenv_file := None;
     created := 0; closed := []; stored := [] |}.

Definition start (up : bool) (env : option str) : state :=
  {| _client := None; log := []; stdout := []; world := boot up env |}.

Definition connected (w : sim) : state :=
  {| _client := Some 0%nat; log := []; stdout := []; world := w |}.

Definition users : MongoDBManager :=
  {| db_name := PStr (lit "test_db"); collection_name := PStr (lit "users");
     db := PStr (lit "test_db");
     collection := (PStr (lit "test_db"), PStr (lit "users")) |}.

Definition uri : str := lit "mongodb://localhost:27017/".

Definition forty_two : pyval := PObj (lit "int") true.

Definition jack : pyval := PDict [(PStr (lit "name"), PStr (lit "Jack"))].

Definition a_and_b : list pyval :=
  [PDict [(PStr (lit "a"), forty_two)]; PDict [(PStr (lit "b"), forty_two)]].

End Fake.

(** ** The script under [if __name__ == "__main__"] *)

Section Script.
Context {C : Collaborators}.

(** The first [except] clause one of whose classes the exception is an
    instance of. *)
Fixpoint select_handler {A} (clauses : list (list exn_class * (exn -> M A))) (e : exn)
  : option (exn -> M A) :=
  match clauses with
  | [] => None
  | (classes, handler) :: rest =>
      if existsb (issubclass (exn_cls e)) classes
      then Some handler
      else select_handler rest e
  end.

(** [try: body except ...: ... finally: final].  The [finally] suite
    runs whatever the outcome; an exception it raises replaces the
    outcome. *)
Definition try_except_finally {A} (body : M A)
           (clauses : list (list exn_class * (exn -> M A))) (final : M unit) : M A :=
  fun s =>
    let (r, s1) :=
      match body s with
      | (Ok a, s') => (Ok a, s')
      | (Raise e, s') =>
          match select_handler clauses e with
          | Some handler => handler e s'
          | None => (Raise e, s')
          end
      end in
    match final s1 with
    | (Ok _, s2) => (r, s2)
    | (Raise e, s2) => (Raise e, s2)
    end.

(** [True] and [False] as objects. *)
Definition py_bool (b : bool) : pyval := PObj (lit "bool") b.

Definition jack_document : pyval :=
  PDict [(PStr (lit "name"), PStr (lit "Jack"));
         (PStr (lit "email"), PStr (lit "jack@example.com"))].

Definition frank_and_daniel : pyval :=
  PList [PDict [(PStr (lit "name"), PStr (lit "Frank"));
                (PStr (lit "email"), PStr (lit "frank@example.com"))];
         PDict [(PStr (lit "name"), PStr (lit "Daniel"));
                (PStr (lit "email"), PStr (lit "daniel@example.com"))]].

(** The body of the [try] statement. *)
Definition main_body : M unit :=
  initialize_client PNone ;;
  user_manager <- __init__ (PStr (lit "test_db")) (PStr (lit "test_collection")) ;;
  r <- insert_document user_manager jack_document ;;
  print [txt "Success="; Value (py_bool (fst r)); txt ", ID="; Value (snd r)] ;;
  r <- insert_document user_manager frank_and_daniel ;;
  print [txt "Success="; Value (py_bool (fst r)); txt ", ID="; Value (snd r)].

Definition main : M unit :=
  logging INFO [txt "Starting application..."] ;;
  try_except_finally
    main_body
    [([TypeError; ValueError],
      fun e => logging ERROR (txt "Validation error: " :: exn_str e));
     ([Exception],
      fun e => logging ERROR (txt "Application error: " :: exn_str e))]
    close_client.

End Script.

(** ** [connect_mongo.py] *)

(** The two driver calls only [insert_data_mongo] makes. *)
Class Listing {C : Collaborators} : Type :=
  { MongoClient_list_database_names : Client -> World -> outcome (list str) * World;
    (* list(cursor) *)
    Cursor_list : Cursor -> World -> outcome (list pyval) * World }.

Section ConnectMongo.
Context {C : Collaborators} {L : Listing}.

(** [for x in xs: body x] *)
Fixpoint for_each {A} (xs : list A) (body : A -> M unit) : M unit :=
  match xs with
  | [] => ret tt
  | x :: rest => body x ;; for_each rest body
  end.

(** [str(n)] for a length. *)
Definition str_of_nat (n : nat) : str :=
  lit (NilEmpty.string_of_uint (Nat.to_uint n)).

(** Returns the documents read back, or [None] on data that is neither
    a [dict] nor a [list]. *)
Definition insert_data_mongo (conn_str db_name collection_name data : pyval) : M pyval :=
  client <- call (MongoClient conn_str) ;;
  db <- pure (MongoClient_getitem client db_name) ;;
  collection <- pure (Database_getitem db collection_name) ;;
  names <- call (MongoClient_list_database_names client) ;;
  for_each names (fun db_name => print [Value (PStr db_name)]) ;;
  match data with
  | PDict _ =>
      result <- call (Collection_insert_one collection data) ;;
      print [txt "Inserted 1 document."] ;;
      inserted_docs <- call (Collection_find_one collection
                               (PDict [(PStr (lit "_id"), inserted_id result)])) ;;
      print [Value inserted_docs] ;;
      ret inserted_docs
  | PList _ =>
      result <- call (Collection_insert_many collection data) ;;
      print [txt "Inserted "; Text (str_of_nat (len (inserted_ids result)));
             txt " documents."] ;;
      cursor <- call (Collection_find collection
                        (PDict [(PStr (lit "_id"),
                                 PDict [(PStr (lit "$in"), PList (inserted_ids result))])])) ;;
      inserted_docs <- call (Cursor_list cursor) ;;
      for_each inserted_docs (fun doc => print [Value doc]) ;;
      ret (PList inserted_docs)
  | _ =>
      print [txt "Data must be a dictionary or a list of dictionaries."] ;;
      ret PNone
  end.

End ConnectMongo.

(** The test double's part of [Listing]. *)
Module FakeListing.

Definition list_database_names (_ : nat) (w : Fake.sim) : outcome (list str) * Fake.sim :=
  Fake.guarded w [lit "admin"; lit "test_db"] w.

Definition fetch_all (c : list pyval) (w : Fake.sim) : outcome (list pyval) * Fake.sim :=
  (Ok c, w).

#[export] Instance listing : @Listing Fake.collaborators :=
  @Build_Listing Fake.collaborators list_database_names fetch_all.

End FakeListing.

(** The test double with faults injected: each fault makes one kind of
    call raise the given exception and leave the world alone. *)
Module Faulty.

Record faults : Type :=
  { on_connect : option exn;   (* MongoClient(...) *)
    on_ping : option exn;
    on_close : option exn;
    on_dumps : option exn;     (* json.dumps *)
    on_print : option exn }.

Definition inject {A} (fault : option exn) (normal : Fake.sim -> outcome A * Fake.sim)
           (w : Fake.sim) : outcome A * Fake.sim :=
  match fault with
  | Some e => (Raise e, w)
  | None => normal w
  end.

Definition collaborators (f : faults) : Collaborators :=
  {| World := Fake.sim;
     Client := nat;
     Database := pyval;
     Collection := pyval * pyval;
     Cursor := list pyval;
     UpdateResult := nat;
     DeleteResult := nat;
     load_dotenv := @load_dotenv Fake.collaborators;
     os_getenv := @os_getenv Fake.collaborators;
     json_dumps v w :=
       match on_dumps f with
       | Some e => Raise e
       | None => @json_dumps Fake.collaborators v w
       end;
     print_error _ _ := on_print f;
     MongoClient v := inject (on_connect f) (@MongoClient Fake.collaborators v);
     admin_command_ping c := inject (on_ping f) (@admin_command_ping Fake.collaborators c);
     MongoClient_close c := inject (on_close f) (@MongoClient_close Fake.collaborators c);
     MongoClient_getitem := @MongoClient_getitem Fake.collaborators;
     Database_getitem := @Database_getitem Fake.collaborators;
     Collection_insert_one := @Collection_insert_one Fake.collaborators;
     Collection_insert_many := @Collection_insert_many Fake.collaborators;
     Collection_find_one := @Collection_find_one Fake.collaborators;
     Collection_find := @Collection_find Fake.collaborators;
     Collection_update_one := @Collection_update_one Fake.collaborators;
     Collection_delete_one := @Collection_delete_one Fake.collaborators |}.

Definition start (f : faults) (env : option str) : @state (collaborators f) :=
  @Build_state (collaborators f) None [] [] (Fake.boot true env).

Definition connected (f : faults) : @state (collaborators f) :=
  @Build_state (collaborators f) (Some 0%nat) [] [] (Fake.boot true None).

Definition users (f : faults) : @MongoDBManager (collaborators f) :=
  @Build_MongoDBManager (collaborators f) (PStr (lit "test_db")) (PStr (lit "users"))
                        (PStr (lit "test_db")) (PStr (lit "test_db"), PStr (lit "users")).

Definition bad_port : exn :=
  mkExn ValueError [txt "Port must be an integer between 0 and 65535: '99999'"].

Definition interrupted : exn := mkExn Exception [txt "interrupted system call"].

Definition not_serializable : exn := mkExn ValueError [txt "Circular reference detected"].

Definition broken_connect : faults :=
  {| on_connect := Some bad_port; on_ping := None; on_close := None; on_dumps := None;
     on_print := None |}.

Definition broken_ping : faults :=
  {| on_connect := None; on_ping := Some interrupted; on_close := None; on_dumps := None;
     on_print := None |}.

Definition broken_close : faults :=
  {| on_connect := None; on_ping := None; on_close := Some interrupted; on_dumps := None;
     on_print := None |}.

Definition broken_dumps : faults :=
  {| on_connect := None; on_ping := None; on_close := None;
     on_dumps := Some not_serializable; on_print := None |}.



End Faulty.

(** * Properties *)

(** ** Strings *)

Section StrFacts.

Lemma lstrip_nil (s : str) : lstrip s = [] <-> all_whitespace s = true.
Proof.
  unfold all_whitespace.
  induction s as [|c s IH]; simpl; [tauto|].
  destruct (isspace c); simpl; [exact IH|].
  split; discriminate.
Qed.

Lemma lstrip_head (s : str) c r : lstrip s = c :: r -> isspace c = false.
Proof.
  induction s as [|d s IH]; simpl; [discriminate|].
  destruct (isspace d) eqn:E; [exact IH|].
  intros [= <- _]. exact E.
Qed.

Lemma all_whitespace_rev (s : str) : all_whitespace (rev s) = all_whitespace s.
Proof.
  unfold all_whitespace.
  destruct (forallb isspace s) eqn:E.
  - rewrite forallb_forall in *. intros c Hc. apply E, in_rev, Hc.
  - destruct (forallb isspace (rev s)) eqn:E'; [|reflexivity].
    rewrite <- E. symmetry. rewrite forallb_forall in *.
    intros c Hc. apply E'. rewrite <- in_rev. exact Hc.
Qed.

Lemma rstrip_nil (s : str) : rstrip s = [] <-> all_whitespace s = true.
Proof.
  unfold rstrip. rewrite <- all_whitespace_rev, <- lstrip_nil.
  split; intros H.
  - apply (f_equal (@rev N)) in H. rewrite rev_involutive in H. exact H.
  - rewrite H. reflexivity.
Qed.

(** [name.strip()] is empty exactly for the empty and the
    whitespace-only strings. *)
Lemma strip_nil (s : str) : strip s = [] <-> all_whitespace s = true.
Proof.
  unfold strip. rewrite rstrip_nil. split; intros H.
  - apply lstrip_nil. destruct (lstrip s) as [|c r] eqn:E; [reflexivity|].
    apply lstrip_head in E. unfold all_whitespace in H. simpl in H.
    rewrite E in H. discriminate.
  - apply lstrip_nil in H. rewrite H. reflexivity.
Qed.

Lemma str_in_char (c : N) (s : str) : str_in [c] s = true <-> In c s.
Proof.
  induction s as [|d s IH]; simpl.
  - split; [discriminate|tauto].
  - rewrite orb_true_iff, IH, andb_true_iff, N.eqb_eq.
    destruct s; simpl; intuition congruence.
Qed.

Lemma startswith_cons (s : str) (p : N) (prefix : str) :
  startswith s (p :: prefix) = true -> exists r, s = p :: r /\ startswith r prefix = true.
Proof.
  destruct s as [|c r]; simpl; [discriminate|].
  rewrite andb_true_iff, N.eqb_eq. intros [-> H]. eauto.
Qed.

(** A string that contains [sub] contains each character of [sub]. *)
Lemma str_in_chars (sub s : str) :
  str_in sub s = true -> forall c, In c sub -> In c s.
Proof.
  assert (P : forall p t, startswith t p = true -> forall c, In c p -> In c t).
  { induction p as [|a p IH]; intros t H c Hc; [destruct Hc|].
    apply startswith_cons in H as (r & -> & H).
    destruct Hc as [->|Hc]; [left; reflexivity|right; eauto]. }
  induction s as [|d s IH]; simpl; rewrite orb_true_iff.
  - intros [H|H] c Hc; [|discriminate].
    destruct sub; [destruct Hc|discriminate].
  - intros [H|H] c Hc; [|right; apply IH; assumption].
    apply (P sub (d :: s) H c Hc).
Qed.

Lemma startswith_strip (s : str) (p : N) (prefix : str) :
  isspace p = false -> startswith s (p :: prefix) = true -> strip s <> [].
Proof.
  intros Hp H. apply startswith_cons in H as (r & -> & _).
  rewrite strip_nil. unfold all_whitespace. simpl. rewrite Hp. discriminate.
Qed.

End StrFacts.

(** ** The reserved-character loop *)

Section NameFacts.

Lemma check_invalid_chars_ok chars name name_type :
  (forall char, In char chars -> str_in char name = false) ->
  check_invalid_chars chars name name_type = Ok tt.
Proof.
  induction chars as [|ch chars IH]; simpl; intros H; [reflexivity|].
  rewrite (H ch) by (left; reflexivity). apply IH. intros; apply H; right; assumption.
Qed.

Lemma check_invalid_chars_raises chars name name_type char :
  In char chars -> str_in char name = true ->
  exists m, check_invalid_chars chars name name_type = Raise (mkExn ValueError m).
Proof.
  induction chars as [|ch chars IH]; simpl; intros Hin H; [destruct Hin|].
  destruct (str_in ch name) eqn:E; [eauto|].
  destruct Hin as [->|Hin]; [congruence|eauto].
Qed.

(** The checks of [_validate_name] on a string, one after the other. *)
Lemma validate_name_str (s name_type : str) :
  _validate_name (PStr s) name_type =
  if all_whitespace s
  then Raise (mkExn ValueError [Text name_type; txt " name cannot be empty or whitespace"])
  else if (64 <? len s)%nat
       then Raise (mkExn ValueError [Text name_type; txt " name cannot exceed 64 characters"])
       else check_invalid_chars invalid_chars s name_type.
Proof.
  unfold _validate_name.
  destruct (strip s) eqn:E.
  - apply strip_nil in E. rewrite E. reflexivity.
  - destruct (all_whitespace s) eqn:W; [|reflexivity].
    apply strip_nil in W. congruence.
Qed.

Lemma all_whitespace_without_parens (s : str) :
  all_whitespace (without_parens s) = all_whitespace s.
Proof.
  unfold all_whitespace, without_parens.
  induction s as [|c s IH]; simpl; [reflexivity|]. rewrite IH. f_equal.
  destruct (c =? 0x28) eqn:E1; [apply N.eqb_eq in E1; subst; reflexivity|].
  destruct (c =? 0x29) eqn:E2; [apply N.eqb_eq in E2; subst; reflexivity|].
  reflexivity.
Qed.

Lemma in_without_parens (c : N) (s : str) :
  c <> 0x28 -> c <> 0x29 -> c <> 0x78 -> In c (without_parens s) <-> In c s.
Proof.
  intros H1 H2 H3. unfold without_parens. rewrite in_map_iff. split.
  - intros (d & E & Hd).
    destruct (d =? 0x28) eqn:E1; [simpl in E; congruence|].
    destruct (d =? 0x29) eqn:E2; simpl in E; congruence.
  - intros Hc. exists c. split; [|exact Hc].
    apply N.eqb_neq in H1, H2. rewrite H1, H2. reflexivity.
Qed.

Lemma no_parens_without_parens (s : str) :
  ~ In 0x28 (without_parens s) /\ ~ In 0x29 (without_parens s).
Proof.
  unfold without_parens. split; rewrite in_map_iff; intros (d & E & _);
    destruct (d =? 0x28) eqn:E1; simpl in E; try discriminate;
    destruct (d =? 0x29) eqn:E2; simpl in E; try discriminate;
    subst; discriminate.
Qed.

End NameFacts.

(** ** Name validation *)

Section NameValidation.

Lemma check_invalid_chars_ext chars s t name_type :
  (forall char, In char chars -> str_in char s = str_in char t) ->
  check_invalid_chars chars s name_type = check_invalid_chars chars t name_type.
Proof.
  induction chars as [|ch chars IH]; simpl; intros H; [reflexivity|].
  rewrite (H ch) by (left; reflexivity).
  rewrite IH by (intros; apply H; right; assumption). reflexivity.
Qed.

Lemma str_in_char_without_parens (c : N) (s : str) :
  c <> 0x28 -> c <> 0x29 -> c <> 0x78 ->
  str_in [c] (without_parens s) = str_in [c] s.
Proof.
  intros H1 H2 H3.
  pose proof (in_without_parens c s H1 H2 H3) as E.
  rewrite <- !str_in_char in E.
  destruct (str_in [c] s), (str_in [c] (without_parens s)); intuition congruence.
Qed.

Lemma str_in_parens_without_parens (s : str) :
  str_in (lit "()") (without_parens s) = false.
Proof.
  destruct (str_in (lit "()") (without_parens s)) eqn:E; [|reflexivity].
  exfalso. apply (proj1 (no_parens_without_parens s)).
  apply (str_in_chars _ _ E). left; reflexivity.
Qed.

(** Every entry of [invalid_chars] is one reserved character other
    than a parenthesis, or the pair of parentheses. *)
Lemma invalid_chars_inv (char : str) :
  In char invalid_chars ->
  char = lit "()" \/
  exists c, char = [c] /\ In c spec_reserved_chars /\ c <> 0x28 /\ c <> 0x29 /\ c <> 0x78.
Proof.
  intros H. vm_compute in H.
  repeat (destruct H as [<-|H];
          [first [left; reflexivity
                 |right; eexists; split; [reflexivity|];
                  split; [vm_compute; tauto|repeat split; discriminate]]|]).
  destruct H.
Qed.

Lemma reserved_char_inv (c : N) :
  In c spec_reserved_chars -> c <> 0x28 -> c <> 0x29 -> In [c] invalid_chars.
Proof.
  intros H H1 H2. vm_compute in H.
  repeat (destruct H as [<-|H]; [first [congruence|vm_compute; tauto]|]).
  destruct H.
Qed.

End NameValidation.

(** C1 (as the code has it).  [_validate_name] raises [ValueError], the
    specification's [InvalidArgument], for every string that is empty or
    whitespace-only, is longer than 64 characters, contains one of the
    reserved characters other than a parenthesis, or contains the pair
    of parentheses; and it returns normally for every string that is not
    whitespace-only, has at most 64 characters and contains no reserved
    character. *)
Theorem validate_name_rejects_accepts (s name_type : str) :
  (all_whitespace s = true \/ (64 < len s)%nat \/
   (exists c, In c s /\ In c spec_reserved_chars /\ c <> 0x28 /\ c <> 0x29) \/
   str_in (lit "()") s = true ->
   exists e, _validate_name (PStr s) name_type = Raise e /\ InvalidArgument e) /\
  (all_whitespace s = false -> (len s <= 64)%nat ->
   (forall c, In c s -> ~ In c spec_reserved_chars) ->
   _validate_name (PStr s) name_type = Ok tt).
Proof.
  rewrite validate_name_str. split.
  - intros H.
    destruct (all_whitespace s); [eexists; split; [reflexivity|right; reflexivity]|].
    destruct (64 <? len s)%nat eqn:L; [eexists; split; [reflexivity|right; reflexivity]|].
    apply Nat.ltb_ge in L.
    assert (exists char, In char invalid_chars /\ str_in char s = true) as (char & Hin & Hs).
    { destruct H as [H|[H|[(c & Hc & Hr & H1 & H2)|H]]]; [discriminate|lia| |].
      - exists [c]. split; [apply reserved_char_inv; assumption|apply str_in_char, Hc].
      - exists (lit "()"). split; [vm_compute; tauto|exact H]. }
    destruct (check_invalid_chars_raises invalid_chars s name_type char Hin Hs) as (m & ->).
    eexists; split; [reflexivity|right; reflexivity].
  - intros -> L H. apply Nat.ltb_ge in L. rewrite L.
    apply check_invalid_chars_ok. intros char Hin.
    destruct (str_in char s) eqn:E; [exfalso|reflexivity].
    destruct (invalid_chars_inv char Hin) as [->|(c & -> & Hr & _)].
    + apply (H 0x28); [apply (str_in_chars _ _ E); left; reflexivity|vm_compute; tauto].
    + apply (H c); [apply str_in_char, E|exact Hr].
Qed.

Lemma validate_name_rejects_accepts_witness :
  (exists e, _validate_name (PStr (lit "my app")) (lit "Database") = Raise e /\
             InvalidArgument e) /\
  _validate_name (PStr (lit "test_db")) (lit "Database") = Ok tt.
Proof.
  split.
  - apply (proj1 (validate_name_rejects_accepts (lit "my app") (lit "Database"))).
    right; right; left. exists 0x20. vm_compute. intuition discriminate.
  - apply (proj2 (validate_name_rejects_accepts (lit "test_db") (lit "Database"))).
    + reflexivity.
    + apply Nat.leb_le. reflexivity.
    + intros c Hc Hr. vm_compute in Hc, Hr.
      repeat (destruct Hc as [<-|Hc]; [intuition discriminate|]). exact Hc.
Defined.

(** C1 as written fails twice: a name with a lone parenthesis contains
    a reserved character and is accepted, and a one-character name made
    of a tab contains no reserved character and is rejected. *)
Lemma validate_name_claim_fails :
  (In 0x28 (lit "a(b") /\ In 0x28 spec_reserved_chars /\
   _validate_name (PStr (lit "a(b")) (lit "Database") = Ok tt) /\
  (len [0x09] = 1%nat /\ (forall c, In c [0x09] -> ~ In c spec_reserved_chars) /\
   _validate_name (PStr [0x09]) (lit "Database") =
   Raise (mkExn ValueError [Text (lit "Database"); txt " name cannot be empty or whitespace"])).
Proof.
  repeat split; try (vm_compute; tauto).
  intros c [<-|[]] Hr. vm_compute in Hr. intuition discriminate.
Qed.

(** C2.  The parenthesis rule is the substring test ['()' in name]: a
    name that contains the pair is rejected with [ValueError]; a name
    that does not contain the pair gets the verdict of the same name
    with its parentheses replaced by a letter, so no parenthesis in it
    is held against it, and is accepted when nothing else is wrong with
    it. *)
Theorem parenthesis_rule (s name_type : str) :
  (str_in (lit "()") s = true ->
   exists e, _validate_name (PStr s) name_type = Raise e /\ InvalidArgument e) /\
  (str_in (lit "()") s = false ->
   _validate_name (PStr s) name_type = _validate_name (PStr (without_parens s)) name_type) /\
  (str_in (lit "()") s = false ->
   all_whitespace s = false -> (len s <= 64)%nat ->
   (forall c, In c s -> In c spec_reserved_chars -> c = 0x28 \/ c = 0x29) ->
   _validate_name (PStr s) name_type = Ok tt).
Proof.
  split; [|split].
  - intros H. rewrite validate_name_str.
    destruct (all_whitespace s); [eexists; split; [reflexivity|right; reflexivity]|].
    destruct (64 <? len s)%nat; [eexists; split; [reflexivity|right; reflexivity]|].
    destruct (check_invalid_chars_raises invalid_chars s name_type (lit "()")) as (m & ->);
      [vm_compute; tauto|exact H|].
    eexists; split; [reflexivity|right; reflexivity].
  - intros H. rewrite !validate_name_str, all_whitespace_without_parens.
    replace (len (without_parens s)) with (len s)
      by (unfold len, without_parens; rewrite length_map; reflexivity).
    destruct (all_whitespace s); [reflexivity|].
    destruct (64 <? len s)%nat; [reflexivity|].
    apply check_invalid_chars_ext. intros char Hin.
    destruct (invalid_chars_inv char Hin) as [->|(c & -> & _ & H1 & H2 & H3)].
    + rewrite H, str_in_parens_without_parens. reflexivity.
    + symmetry. apply str_in_char_without_parens; assumption.
  - intros H W L R. rewrite validate_name_str, W.
    apply Nat.ltb_ge in L. rewrite L.
    apply check_invalid_chars_ok. intros char Hin.
    destruct (invalid_chars_inv char Hin) as [->|(c & -> & Hr & H1 & H2 & _)]; [exact H|].
    destruct (str_in [c] s) eqn:E; [exfalso|reflexivity].
    apply str_in_char in E. destruct (R c E Hr); contradiction.
Qed.

Lemma parenthesis_rule_witness :
  (exists e, _validate_name (PStr (lit "f()")) (lit "Collection") = Raise e /\
             InvalidArgument e) /\
  _validate_name (PStr (lit ")a(b")) (lit "Collection") =
  _validate_name (PStr (lit "xaxb")) (lit "Collection") /\
  _validate_name (PStr (lit ")a(b")) (lit "Collection") = Ok tt.
Proof.
  split; [|split].
  - apply (proj1 (parenthesis_rule (lit "f()") (lit "Collection"))). reflexivity.
  - apply (proj1 (proj2 (parenthesis_rule (lit ")a(b") (lit "Collection")))). reflexivity.
  - apply (proj2 (proj2 (parenthesis_rule (lit ")a(b") (lit "Collection")))).
    + reflexivity.
    + reflexivity.
    + apply Nat.leb_le. reflexivity.
    + intros c Hc Hr. vm_compute in Hc, Hr.
      repeat (destruct Hc as [<-|Hc]; [intuition discriminate|]). destruct Hc.
Defined.

(** ** The client lifecycle *)

Section Lifecycle.
Context {C : Collaborators}.

Lemma issubclass_Exception (c : exn_class) : issubclass c Exception = true.
Proof. destruct c; reflexivity. Qed.

(** A fresh [initialize_client] whose connection and ping succeed
    installs the new client. *)
Lemma initialize_client_connects (connection_string : pyval) (s : state)
      (cl : Client) (w1 w2 : World) :
  _client s = None ->
  _validate_connection_string (resolve connection_string (load_dotenv (world s))) = Ok tt ->
  MongoClient (resolve connection_string (load_dotenv (world s))) (load_dotenv (world s))
  = (Ok cl, w1) ->
  admin_command_ping cl w1 = (Ok tt, w2) ->
  initialize_client connection_string s =
  (Ok tt, {| _client := Some cl;
             log := log s ++ [(INFO, [txt "MongoDB client initialized successfully."])];
             stdout := stdout s;
             world := w2 |}).
Proof.
  intros Hc Hv Hm Hp. destruct s as [c l o w]; simpl in *; subst c.
  unfold initialize_client, bind, get_client, call, ask, pure, try_except, set_client,
    logging, set_world; simpl.
  rewrite Hv, Hm; simpl. rewrite Hp. reflexivity.
Qed.

Lemma valid_uri_validates (uri : str) :
  startswith uri (lit "mongodb://") || startswith uri (lit "mongodb+srv://") = true ->
  _validate_connection_string (PStr uri) = Ok tt.
Proof.
  intros H. unfold _validate_connection_string. rewrite H.
  destruct (strip uri) eqn:E; [exfalso|reflexivity].
  apply orb_true_iff in H.
  destruct H as [H|H]; revert E.
  - exact (startswith_strip uri 0x6D (lit "ongodb://") eq_refl H).
  - exact (startswith_strip uri 0x6D (lit "ongodb+srv://") eq_refl H).
Qed.

End Lifecycle.

Section LifecycleClaims.
Context {C : Collaborators}.

(** C5.  When the liveness check of a fresh [initialize_client] fails
    with a driver error (a [ConnectionFailure] or another
    [PyMongoError], the specification's [ConnectionError]), that same
    error reaches the caller, the failure is logged, and [_client] is
    [None] again as it was before the call; a later call therefore
    connects anew, and succeeds when the connection and the ping do. *)
Theorem ping_failure_resets_client (connection_string : pyval) (s : state)
        (cl : Client) (e : exn) (w1 w2 : World) :
  _client s = None ->
  _validate_connection_string (resolve connection_string (load_dotenv (world s))) = Ok tt ->
  MongoClient (resolve connection_string (load_dotenv (world s))) (load_dotenv (world s))
  = (Ok cl, w1) ->
  admin_command_ping cl w1 = (Raise e, w2) ->
  ConnectionError e ->
  exists s',
    initialize_client connection_string s = (Raise e, s') /\
    _client s' = None /\ _client s' = _client s /\
    log s' = log s ++ [(ERROR, txt "FATAL: MongoDB connection failed during initialization: "
                                 :: exn_str e)] /\
    stdout s' = stdout s /\ world s' = w2 /\
    forall (retry : pyval) (cl' : Client) (w3 w4 : World),
      _validate_connection_string (resolve retry (load_dotenv w2)) = Ok tt ->
      MongoClient (resolve retry (load_dotenv w2)) (load_dotenv w2) = (Ok cl', w3) ->
      admin_command_ping cl' w3 = (Ok tt, w4) ->
      exists s'', initialize_client retry s' = (Ok tt, s'') /\ _client s'' = Some cl'.
Proof.
  intros Hc Hv Hm Hp He.
  destruct s as [c l o w]; simpl in *; subst c.
  eexists. split; [|split; [|split; [|split; [|split; [|split]]]]].
  - unfold initialize_client, bind, get_client, call, ask, pure, try_except, set_client,
      logging, raise, set_world; simpl.
    rewrite Hv, Hm; simpl. rewrite Hp.
    unfold ConnectionError in He. simpl in He. rewrite He. reflexivity.
  - reflexivity.
  - reflexivity.
  - reflexivity.
  - reflexivity.
  - reflexivity.
  - intros retry cl' w3 w4 Hv' Hm' Hp'. eexists. split.
    + apply (initialize_client_connects retry _ cl' w3 w4); [reflexivity|exact Hv'|exact Hm'|exact Hp'].
    + reflexivity.
Qed.

(** C6.  With no client installed, constructing a [MongoDBManager]
    raises [RuntimeError], the specification's [IllegalState], whatever
    the two names are, and changes nothing. *)
Theorem init_without_client_raises (db_name collection_name : pyval) (s : state) :
  _client s = None ->
  exists e, __init__ db_name collection_name s = (Raise e, s) /\ IllegalState e.
Proof.
  intros Hc. eexists. split.
  - destruct s as [c l o w]; simpl in *; subst c. reflexivity.
  - reflexivity.
Qed.

(** C7.  When a client is installed, [initialize_client] returns
    normally for every argument and only logs that the client exists:
    the client, the output and the world are untouched. *)
Theorem initialize_client_idempotent (connection_string : pyval) (s : state) (cl : Client) :
  _client s = Some cl ->
  initialize_client connection_string s =
  (Ok tt, {| _client := Some cl;
             log := log s ++ [(INFO, [txt "MongoDB client already initialized."])];
             stdout := stdout s;
             world := world s |}).
Proof.
  intros Hc. destruct s as [c l o w]; simpl in *; subst c. reflexivity.
Qed.

(** C8.  [close_client] returns normally and leaves [_client] at [None]
    provided the driver's [close] returns normally on the installed
    client, if there is one: the session is then released through the
    driver; with no client installed the call changes nothing at all,
    so a second call in a row is such a no-operation. *)
Theorem close_client_idempotent (s : state) :
  (forall cl, _client s = Some cl ->
              exists w', MongoClient_close cl (world s) = (Ok tt, w')) ->
  exists s1,
    close_client s = (Ok tt, s1) /\ _client s1 = None /\
    close_client s1 = (Ok tt, s1) /\
    (forall cl, _client s = Some cl ->
                world s1 = snd (MongoClient_close cl (world s)) /\
                log s1 = log s ++ [(INFO, [txt "MongoDB client closed."])]) /\
    (_client s = None -> s1 = s).
Proof.
  intros H. destruct s as [[cl|] l o w]; simpl in *.
  - destruct (H cl eq_refl) as (w' & Hw).
    eexists. split; [|split; [|split; [|split]]].
    + unfold close_client, bind, get_client, call, set_client, logging, set_world; simpl.
      rewrite Hw. reflexivity.
    + reflexivity.
    + reflexivity.
    + intros ? [= <-]. rewrite Hw. split; reflexivity.
    + discriminate.
  - exists {| _client := None; log := l; stdout := o; world := w |}.
    split; [reflexivity|]. split; [reflexivity|]. split; [reflexivity|].
    split; [discriminate|reflexivity].
Qed.

(** C10.  An explicitly empty connection string is falsy, so the
    [or] falls through to the environment: the call behaves as the call
    without argument, and on a fresh manager it succeeds when the
    environment's value has a MongoDB scheme prefix and the connection
    and the ping succeed. *)
Theorem empty_connection_string_uses_environment (s : state) (uri : str)
        (cl : Client) (w1 w2 : World) :
  _client s = None ->
  os_getenv (lit "MONGO_DB_CONNECTION_STRING") (load_dotenv (world s)) = Some uri ->
  startswith uri (lit "mongodb://") || startswith uri (lit "mongodb+srv://") = true ->
  MongoClient (PStr uri) (load_dotenv (world s)) = (Ok cl, w1) ->
  admin_command_ping cl w1 = (Ok tt, w2) ->
  initialize_client (PStr []) s = initialize_client PNone s /\
  resolve (PStr []) (load_dotenv (world s)) = PStr uri /\
  exists s', initialize_client (PStr []) s = (Ok tt, s') /\ _client s' = Some cl.
Proof.
  intros Hc He Hu Hm Hp.
  assert (R : resolve (PStr []) (load_dotenv (world s)) = PStr uri)
    by (unfold resolve; rewrite He; reflexivity).
  split; [reflexivity|]. split; [exact R|].
  eexists. split.
  - apply (initialize_client_connects (PStr []) s cl w1 w2); rewrite ?R.
    + exact Hc.
    + apply valid_uri_validates, Hu.
    + exact Hm.
    + exact Hp.
  - reflexivity.
Qed.

End LifecycleClaims.

(** ** The collection accessor *)

Section Crud.
Context {C : Collaborators}.

Lemma try_except_Exception {A} (body : M A) (handler : exn -> M A) (s : state) :
  try_except body [Exception] handler s =
  match body s with
  | (Ok a, s') => (Ok a, s')
  | (Raise e, s') => handler e s'
  end.
Proof.
  unfold try_except. destruct (body s) as [[a|e] s']; [reflexivity|].
  simpl. rewrite issubclass_Exception. reflexivity.
Qed.

Lemma print_ok (m : message) (s : state) :
  print_error m (world s) = None ->
  print m s = (Ok tt, {| _client := _client s; log := log s;
                         stdout := stdout s ++ [m]; world := world s |}).
Proof. intros H. unfold print. rewrite H. reflexivity. Qed.

(** [print] changes nothing but the output. *)
Lemma print_frame (m : message) (s s' : state) (r : outcome unit) :
  print m s = (r, s') ->
  world s' = world s /\ log s' = log s /\ _client s' = _client s.
Proof.
  unfold print. destruct (print_error m (world s)); intros [= _ <-]; repeat split.
Qed.

(** The [except Exception] handler of [insert_document]: it logs, and
    then its own [print] decides. *)
Lemma insert_handler_run (e : exn) (s : state) :
  (logging ERROR (txt "Error inserting data: " :: exn_str e) ;;
   print (txt "Error inserting data: " :: exn_str e) ;;
   ret (false, PNone)) s =
  match print_error (txt "Error inserting data: " :: exn_str e) (world s) with
  | None => (Ok (false, PNone), insert_failed e s)
  | Some e' => (Raise e', insert_logged e s)
  end.
Proof.
  destruct s as [c l o w]. unfold bind, logging, print, ret; simpl.
  destruct (print_error (txt "Error inserting data: " :: exn_str e) w); reflexivity.
Qed.


(** The summary is five lines of output when the rendering succeeds
    and the stream takes the lines. *)
Lemma print_created_ok banner (self : MongoDBManager) (data : pyval) (s : state) text :
  json_dumps data (world s) = Ok text ->
  printable (world s) [[txt banner];
                       [txt "Database: "; Value (db_name self)];
                       [txt "Collection: "; Value (collection_name self)];
                       [txt "Created Data:"];
                       [Text text]] ->
  print_created banner self data s =
  (Ok tt, {| _client := _client s; log := log s;
             stdout := stdout s ++ [[txt banner];
                                    [txt "Database: "; Value (db_name self)];
                                    [txt "Collection: "; Value (collection_name self)];
                                    [txt "Created Data:"];
                                    [Text text]];
             world := world s |}).
Proof.
  intros H P. destruct s as [c l o w]; simpl in *.
  unfold print_created, bind, print; simpl.
  rewrite (P [txt banner]) by (simpl; tauto); simpl.
  rewrite (P [txt "Database: "; Value (db_name self)]) by (simpl; tauto); simpl.
  rewrite (P [txt "Collection: "; Value (collection_name self)]) by (simpl; tauto); simpl.
  rewrite (P [txt "Created Data:"]) by (simpl; tauto); simpl.
  rewrite H. rewrite (P [Text text]) by (simpl; tauto).
  rewrite <- !app_assoc. reflexivity.
Qed.

(** The summary changes nothing but the output. *)
Lemma print_created_frame banner (self : MongoDBManager) (data : pyval) (s s' : state)
      (r : outcome unit) :
  print_created banner self data s = (r, s') ->
  world s' = world s /\ log s' = log s /\ _client s' = _client s.
Proof.
  unfold print_created, bind.
  repeat match goal with
         | |- context [print ?m ?x] =>
             let E := fresh "E" in
             let F := fresh "F" in
             destruct (print m x) as [[[]|?] ?] eqn:E;
             pose proof (print_frame _ _ _ _ E) as F; clear E
         | |- context [json_dumps ?d ?w] => destruct (json_dumps d w)
         end;
    intros [= _ <-]; intuition congruence.
Qed.

(** C4.  On a [dict] for which the driver's [insert_one] returns, the
    result is the pair of the driver's acknowledged flag and inserted
    id; on a [list] for which [insert_many] returns, it is the pair of
    the acknowledged flag and the list of inserted ids.  The first
    component is [True] when the driver acknowledges.  Both after the
    summary has been rendered and printed. *)
Theorem insert_document_result_shape (self : MongoDBManager) (s : state) :
  (forall items r w1 text,
      Collection_insert_one (collection self) (PDict items) (world s) = (Ok r, w1) ->
      json_dumps (PDict items) w1 = Ok text ->
      printable w1 [[txt "=== SINGLE DOCUMENT INSERTED ==="];
                    [txt "Database: "; Value (db_name self)];
                    [txt "Collection: "; Value (collection_name self)];
                    [txt "Created Data:"];
                    [Text text]] ->
      exists s',
        insert_document self (PDict items) s = (Ok (one_acknowledged r, inserted_id r), s') /\
        world s' = w1 /\ log s' = log s /\
        (one_acknowledged r = true ->
         fst (insert_document self (PDict items) s) = Ok (true, inserted_id r))) /\
  (forall elems r w1 text,
      Collection_insert_many (collection self) (PList elems) (world s) = (Ok r, w1) ->
      json_dumps (PList elems) w1 = Ok text ->
      printable w1 [[txt "=== MULTIPLE DOCUMENTS INSERTION ==="];
                    [txt "Database: "; Value (db_name self)];
                    [txt "Collection: "; Value (collection_name self)];
                    [txt "Created Data:"];
                    [Text text]] ->
      exists s',
        insert_document self (PList elems) s
        = (Ok (many_acknowledged r, PList (inserted_ids r)), s') /\
        world s' = w1 /\ log s' = log s /\
        (many_acknowledged r = true ->
         fst (insert_document self (PList elems) s) = Ok (true, PList (inserted_ids r)))).
Proof.
  split; intros d r w1 text H J P.
  - assert (E : insert_document self (PDict d) s =
                (Ok (one_acknowledged r, inserted_id r),
                 snd (print_created "=== SINGLE DOCUMENT INSERTED ===" self (PDict d)
                                    (set_world s w1)))).
    { unfold insert_document. rewrite try_except_Exception.
      unfold bind at 1, call. rewrite H. unfold bind.
      rewrite (print_created_ok _ self _ (set_world s w1) text J P). reflexivity. }
    rewrite E, (print_created_ok _ self _ (set_world s w1) text J P).
    eexists. split; [reflexivity|]. simpl. repeat split. intros ->. reflexivity.
  - assert (E : insert_document self (PList d) s =
                (Ok (many_acknowledged r, PList (inserted_ids r)),
                 snd (print_created "=== MULTIPLE DOCUMENTS INSERTION ===" self (PList d)
                                    (set_world s w1)))).
    { unfold insert_document. rewrite try_except_Exception.
      unfold bind at 1, call. rewrite H. unfold bind.
      rewrite (print_created_ok _ self _ (set_world s w1) text J P). reflexivity. }
    rewrite E, (print_created_ok _ self _ (set_world s w1) text J P).
    eexists. split; [reflexivity|]. simpl. repeat split. intros ->. reflexivity.
Qed.

(** C9.  The four remaining methods are bare driver calls: an
    exception the driver raises leaves the method as it is, with the
    world as the driver left it and nothing logged or printed. *)
Theorem crud_failures_propagate (self : MongoDBManager) (s : state) (e : exn) (w' : World) :
  (forall filter_dict,
      Collection_find_one (collection self) filter_dict (world s) = (Raise e, w') ->
      find_one self filter_dict s = (Raise e, set_world s w')) /\
  (forall filter_dict,
      Collection_find (collection self) (py_or filter_dict (PDict [])) (world s)
      = (Raise e, w') ->
      find_many self filter_dict s = (Raise e, set_world s w')) /\
  (forall filter_dict update_dict,
      Collection_update_one (collection self) filter_dict update_dict (world s)
      = (Raise e, w') ->
      update_one self filter_dict update_dict s = (Raise e, set_world s w')) /\
  (forall filter_dict,
      Collection_delete_one (collection self) filter_dict (world s) = (Raise e, w') ->
      delete_one self filter_dict s = (Raise e, set_world s w')).
Proof.
  repeat split; intros;
    unfold find_one, find_many, update_one, delete_one, call;
    match goal with H : _ = (Raise e, w') |- _ => rewrite H end; reflexivity.
Qed.

End Crud.

(** ** Runs on the test double *)

Section Runs.
Import Fake.

Lemma ping_failure_resets_client_witness :
  exists s', initialize_client PNone (start false (Some uri)) = (Raise down, s') /\
             _client s' = None /\
             exists s'', initialize_client PNone
                           (set_world s' (boot true (Some uri))) = (Ok tt, s'').
Proof.
  edestruct (ping_failure_resets_client PNone (start false (Some uri)))
    as (s' & E & N & _).
  - reflexivity.
  - reflexivity.
  - reflexivity.
  - reflexivity.
  - reflexivity.
  - exists s'. split; [exact E|]. split; [exact N|].
    destruct s' as [c l o w]; simpl in N; subst c. eexists. reflexivity.
Defined.

Lemma init_without_client_raises_witness :
  exists e, __init__ (PStr (lit "test_db")) (PStr (lit "users")) (start true (Some uri))
            = (Raise e, start true (Some uri)) /\ IllegalState e.
Proof.
  apply (init_without_client_raises (PStr (lit "test_db")) (PStr (lit "users"))
                                    (start true (Some uri))).
  reflexivity.
Defined.

Lemma initialize_client_idempotent_witness :
  initialize_client (PStr (lit "not a uri")) (connected (boot false None)) =
  (Ok tt, {| _client := Some 0%nat;
             log := [(INFO, [txt "MongoDB client already initialized."])];
             stdout := [];
             world := boot false None |}).
Proof.
  apply (initialize_client_idempotent (PStr (lit "not a uri")) (connected (boot false None))
                                      0%nat).
  reflexivity.
Defined.

Lemma close_client_idempotent_witness :
  exists s1, close_client (connected (boot true None)) = (Ok tt, s1) /\
             _client s1 = None /\ close_client s1 = (Ok tt, s1).
Proof.
  destruct (close_client_idempotent (connected (boot true None))) as (s1 & H1 & H2 & H3 & _).
  - intros cl _. eexists. reflexivity.
  - exists s1. split; [exact H1|]. split; [exact H2|exact H3].
Defined.

Lemma empty_connection_string_uses_environment_witness :
  exists s', initialize_client (PStr []) (start true (Some uri)) = (Ok tt, s') /\
             _client s' = Some 0%nat.
Proof.
  edestruct (empty_connection_string_uses_environment (start true (Some uri)) uri)
    as (_ & _ & H).
  - reflexivity.
  - reflexivity.
  - reflexivity.
  - reflexivity.
  - reflexivity.
  - exact H.
Defined.



Lemma insert_document_result_shape_witness :
  (exists s', insert_document users jack (connected (boot true None))
              = (Ok (true, ObjectId), s')) /\
  (exists s', insert_document users (PList a_and_b) (connected (boot true None))
              = (Ok (true, PList [ObjectId; ObjectId]), s')).
Proof.
  split.
  - edestruct (proj1 (insert_document_result_shape users (connected (boot true None))))
      as (s' & H & _).
    + reflexivity.
    + reflexivity.
    + intros m _. reflexivity.
    + exists s'. exact H.
  - edestruct (proj2 (insert_document_result_shape users (connected (boot true None)))
                      a_and_b)
      as (s' & H & _).
    + reflexivity.
    + reflexivity.
    + intros m _. reflexivity.
    + exists s'. exact H.
Defined.

Lemma crud_failures_propagate_witness :
  find_one users jack (connected (boot false None))
  = (Raise down, connected (boot false None)) /\
  find_many users PNone (connected (boot false None))
  = (Raise down, connected (boot false None)) /\
  update_one users jack jack (connected (boot false None))
  = (Raise down, connected (boot false None)) /\
  delete_one users jack (connected (boot false None))
  = (Raise down, connected (boot false None)).
Proof.
  destruct (crud_failures_propagate users (connected (boot false None)) down
                                    (boot false None)) as (H1 & H2 & H3 & H4).
  split; [|split; [|split]].
  - apply H1. reflexivity.
  - apply H2. reflexivity.
  - apply H3. reflexivity.
  - apply H4. reflexivity.
Defined.

End Runs.

(** * Further properties of the code *)

(** ** The two validators *)

Section Validators.

Lemma check_invalid_chars_ok_inv chars name name_type :
  check_invalid_chars chars name name_type = Ok tt ->
  forall char, In char chars -> str_in char name = false.
Proof.
  induction chars as [|ch chars IH]; simpl; intros H char Hin; [destruct Hin|].
  destruct (str_in ch name) eqn:E; [discriminate|].
  destruct Hin as [<-|Hin]; [exact E|apply IH; assumption].
Qed.

Lemma check_invalid_chars_first chars name name_type e :
  check_invalid_chars chars name name_type = Raise e ->
  exists before char after,
    chars = before ++ char :: after /\ str_in char name = true /\
    (forall c, In c before -> str_in c name = false) /\
    e = mkExn ValueError [Text name_type; txt " name cannot contain '"; Text char; txt "'"].
Proof.
  induction chars as [|ch chars IH]; simpl; intros H; [discriminate|].
  destruct (str_in ch name) eqn:E.
  - exists [], ch, chars. injection H as <-. repeat split; [exact E|intros c []].
  - destruct (IH H) as (before & char & after & -> & Hs & Hb & ->).
    exists (ch :: before), char, after. repeat split; [exact Hs|].
    intros c [<-|Hc]; [exact E|apply Hb, Hc].
Qed.

Lemma validate_name_class (name : pyval) (name_type : str) (e : exn) :
  _validate_name name name_type = Raise e ->
  match name with
  | PStr _ => exn_cls e = ValueError
  | _ => e = mkExn TypeError [Text name_type; txt " name must be a string, got ";
                             Text (type_name name)]
  end.
Proof.
  destruct name as [|s| | |]; try (simpl; intros [= <-]; reflexivity).
  rewrite validate_name_str.
  destruct (all_whitespace s); [intros [= <-]; reflexivity|].
  destruct (64 <? len s)%nat; [intros [= <-]; reflexivity|].
  intros H. apply check_invalid_chars_first in H as (? & ? & ? & _ & _ & _ & ->).
  reflexivity.
Qed.

Lemma validate_connection_string_class (v : pyval) (e : exn) :
  _validate_connection_string v = Raise e ->
  match v with
  | PStr _ => exn_cls e = ValueError
  | _ => e = mkExn TypeError [txt "Connection string must be a string, got ";
                             Text (type_name v)]
  end.
Proof.
  destruct v as [|s| | |]; simpl; try (intros [= <-]; reflexivity).
  destruct (strip s); [intros [= <-]; reflexivity|].
  destruct (negb _); [intros [= <-]; reflexivity|discriminate].
Qed.

End Validators.

(** X1.  [_validate_connection_string] returns normally exactly on the
    strings that begin with [mongodb://] or [mongodb+srv://]; nothing
    after the prefix is looked at. *)
Theorem validate_connection_string_accepts (v : pyval) :
  _validate_connection_string v = Ok tt <->
  exists s, v = PStr s /\
            startswith s (lit "mongodb://") || startswith s (lit "mongodb+srv://") = true.
Proof.
  split.
  - destruct v as [|s| | |]; simpl; try discriminate.
    destruct (strip s); [discriminate|].
    destruct (startswith s (lit "mongodb://") || startswith s (lit "mongodb+srv://")) eqn:E;
      [|discriminate].
    intros _. exists s. split; [reflexivity|exact E].
  - intros (s & -> & H). apply valid_uri_validates, H.
Qed.

(** X2.  The prefix test is made on the string as given, not on the
    stripped string: a connection string that begins with a whitespace
    character is rejected with [ValueError], with the empty-string
    message when it is all whitespace and the scheme message
    otherwise. *)
Theorem validate_connection_string_leading_space (c : N) (rest : str) :
  isspace c = true ->
  _validate_connection_string (PStr (c :: rest)) =
  Raise (mkExn ValueError
           [if all_whitespace rest
            then txt "Connection string cannot be empty or whitespace"
            else txt "Connection string must start with 'mongodb://' or 'mongodb+srv://'"]).
Proof.
  intros Hc. unfold _validate_connection_string.
  assert (W : all_whitespace (c :: rest) = all_whitespace rest)
    by (unfold all_whitespace; simpl; rewrite Hc; reflexivity).
  destruct (strip (c :: rest)) eqn:E.
  - apply strip_nil in E. rewrite <- W, E. reflexivity.
  - destruct (all_whitespace rest) eqn:R.
    + apply strip_nil in W. congruence.
    + assert (P : forall prefix, isspace (hd 0 prefix) = false -> prefix <> [] ->
                                 startswith (c :: rest) prefix = false).
      { intros [|p prefix] Hp Hn; [congruence|]. simpl in *.
        destruct (c =? p) eqn:Q; [|reflexivity].
        apply N.eqb_eq in Q. congruence. }
      rewrite !P by (try reflexivity; discriminate). reflexivity.
Qed.

Lemma validate_connection_string_leading_space_witness :
  _validate_connection_string (PStr (lit " mongodb://localhost:27017/")) =
  Raise (mkExn ValueError
           [txt "Connection string must start with 'mongodb://' or 'mongodb+srv://'"]).
Proof.
  apply (validate_connection_string_leading_space 0x20 (lit "mongodb://localhost:27017/")).
  reflexivity.
Defined.

(** X3.  [_validate_name] accepts a string exactly when it is not
    whitespace-only, has at most 64 characters, contains no reserved
    character other than a parenthesis, and does not contain an opening
    parenthesis directly followed by a closing one. *)
Theorem validate_name_accepts (s name_type : str) :
  _validate_name (PStr s) name_type = Ok tt <->
  all_whitespace s = false /\ (len s <= 64)%nat /\
  (forall c, In c s -> In c spec_reserved_chars -> c = 0x28 \/ c = 0x29) /\
  str_in (lit "()") s = false.
Proof.
  rewrite validate_name_str. split.
  - destruct (all_whitespace s); [discriminate|].
    destruct (64 <? len s)%nat eqn:L; [discriminate|]. apply Nat.ltb_ge in L.
    intros H. pose proof (check_invalid_chars_ok_inv _ _ _ H) as K.
    split; [reflexivity|]. split; [exact L|]. split.
    + intros c Hc Hr.
      destruct (N.eq_dec c 0x28) as [|N1]; [left; assumption|].
      destruct (N.eq_dec c 0x29) as [|N2]; [right; assumption|].
      exfalso. pose proof (K [c] (reserved_char_inv c Hr N1 N2)) as F.
      apply str_in_char in Hc. congruence.
    + apply K. vm_compute. tauto.
  - intros (-> & L & R & P). apply Nat.ltb_ge in L. rewrite L.
    apply check_invalid_chars_ok. intros char Hin.
    destruct (invalid_chars_inv char Hin) as [->|(c & -> & Hr & H1 & H2 & _)]; [exact P|].
    destruct (str_in [c] s) eqn:E; [exfalso|reflexivity].
    apply str_in_char in E. destruct (R c E Hr); contradiction.
Qed.

(** X4.  When a name passes the whitespace and length tests and is
    rejected, the message names the first entry of [invalid_chars], in
    the order of the list, that occurs in the name. *)
Theorem validate_name_reports_first (s name_type : str) (e : exn) :
  all_whitespace s = false -> (len s <= 64)%nat ->
  _validate_name (PStr s) name_type = Raise e ->
  exists before char after,
    invalid_chars = before ++ char :: after /\ str_in char s = true /\
    (forall c, In c before -> str_in c s = false) /\
    e = mkExn ValueError [Text name_type; txt " name cannot contain '"; Text char; txt "'"].
Proof.
  intros W L. apply Nat.ltb_ge in L. rewrite validate_name_str, W, L.
  apply check_invalid_chars_first.
Qed.

Lemma validate_name_reports_first_witness :
  exists before after,
    invalid_chars = before ++ lit "." :: after /\
    _validate_name (PStr (lit "a$b.c")) (lit "Database") =
    Raise (mkExn ValueError [Text (lit "Database"); txt " name cannot contain '";
                             Text (lit "."); txt "'"]).
Proof.
  destruct (validate_name_reports_first (lit "a$b.c") (lit "Database")
              (mkExn ValueError [Text (lit "Database"); txt " name cannot contain '";
                                 Text (lit "."); txt "'"]))
    as (before & char & after & E & _ & _ & Q).
  - reflexivity.
  - apply Nat.leb_le. reflexivity.
  - reflexivity.
  - injection Q as <-. exists before, after. split; [exact E|reflexivity].
Defined.

(** X5.  Both validators raise nothing but [TypeError] and
    [ValueError]: [TypeError], naming the type of the value, on every
    value that is not a string, and [ValueError] on strings. *)
Theorem validators_raise_invalid_argument (v : pyval) (name_type : str) :
  (forall e, _validate_name v name_type = Raise e ->
             InvalidArgument e /\ (exn_cls e = TypeError <-> forall s, v <> PStr s)) /\
  (forall e, _validate_connection_string v = Raise e ->
             InvalidArgument e /\ (exn_cls e = TypeError <-> forall s, v <> PStr s)) /\
  ((forall s, v <> PStr s) ->
   _validate_name v name_type =
   Raise (mkExn TypeError [Text name_type; txt " name must be a string, got ";
                           Text (type_name v)]) /\
   _validate_connection_string v =
   Raise (mkExn TypeError [txt "Connection string must be a string, got ";
                           Text (type_name v)])).
Proof.
  split; [|split].
  - intros e H. apply validate_name_class in H.
    destruct v as [|s| | |]; try (subst e; split; [left; reflexivity|];
                                  split; [discriminate|reflexivity]).
    split; [right; exact H|]. split; [congruence|].
    intros K. exfalso. apply (K s). reflexivity.
  - intros e H. apply validate_connection_string_class in H.
    destruct v as [|s| | |]; try (subst e; split; [left; reflexivity|];
                                  split; [discriminate|reflexivity]).
    split; [right; exact H|]. split; [congruence|].
    intros K. exfalso. apply (K s). reflexivity.
  - intros K. destruct v as [|s| | |]; try (split; reflexivity).
    exfalso. apply (K s). reflexivity.
Qed.

Lemma validators_raise_invalid_argument_witness :
  _validate_name (PObj (lit "int") true) (lit "Database") =
  Raise (mkExn TypeError [Text (lit "Database"); txt " name must be a string, got ";
                          Text (lit "int")]) /\
  _validate_connection_string PNone =
  Raise (mkExn TypeError [txt "Connection string must be a string, got ";
                          Text (lit "NoneType")]).
Proof.
  split.
  - apply (proj2 (proj2 (validators_raise_invalid_argument
                           (PObj (lit "int") true) (lit "Database")))).
    intros s; discriminate.
  - apply (proj2 (proj2 (validators_raise_invalid_argument PNone (lit "Database")))).
    intros s; discriminate.
Defined.

(** ** More of the client lifecycle *)

Section LifecycleMore.
Context {C : Collaborators}.

Lemma initialize_client_rejects (connection_string : pyval) (s : state) (e : exn) :
  _client s = None ->
  _validate_connection_string (resolve connection_string (load_dotenv (world s))) = Raise e ->
  initialize_client connection_string s = (Raise e, set_world s (load_dotenv (world s))).
Proof.
  intros Hc Hv. destruct s as [c l o w]; simpl in *; subst c.
  unfold initialize_client, bind, get_client, call, ask, pure, set_world; simpl.
  rewrite Hv. reflexivity.
Qed.

Lemma close_client_returns (s : state) (cl : Client) (w' : World) :
  _client s = Some cl ->
  MongoClient_close cl (world s) = (Ok tt, w') ->
  close_client s =
  (Ok tt, {| _client := None; log := log s ++ [(INFO, [txt "MongoDB client closed."])];
             stdout := stdout s; world := w' |}).
Proof.
  intros Hc Hw. destruct s as [c l o w]; simpl in *; subst c.
  unfold close_client, bind, get_client, call, set_client, logging, set_world; simpl.
  rewrite Hw. reflexivity.
Qed.

(** X6.  A fresh [initialize_client] whose resolved connection string
    does not validate raises the validator's [TypeError] or
    [ValueError] before any driver call: only [load_dotenv] has run, no
    client is installed and nothing is logged. *)
Theorem initialize_client_invalid_string (connection_string : pyval) (s : state) (e : exn) :
  _client s = None ->
  _validate_connection_string (resolve connection_string (load_dotenv (world s))) = Raise e ->
  initialize_client connection_string s = (Raise e, set_world s (load_dotenv (world s))) /\
  InvalidArgument e /\
  _client (snd (initialize_client connection_string s)) = None /\
  log (snd (initialize_client connection_string s)) = log s.
Proof.
  intros Hc Hv. rewrite (initialize_client_rejects _ _ _ Hc Hv).
  split; [reflexivity|]. split; [|split; [exact Hc|reflexivity]].
  apply validate_connection_string_class in Hv.
  destruct (resolve connection_string (load_dotenv (world s)));
    try (subst e; left; reflexivity).
  right; exact Hv.
Qed.

(** X7.  How the connection string is resolved.  A falsy argument
    ([None], the empty string, ...) with the variable
    [MONGO_DB_CONNECTION_STRING] unset after [load_dotenv] makes a fresh
    [initialize_client] raise [TypeError] for [NoneType]; a truthy
    argument that is not a string raises [TypeError] for its own type
    whatever the environment holds: the environment is a fallback for
    falsy arguments only. *)
Theorem initialize_client_resolution (connection_string : pyval) (s : state) :
  _client s = None ->
  (truthy connection_string = false ->
   os_getenv (lit "MONGO_DB_CONNECTION_STRING") (load_dotenv (world s)) = None ->
   initialize_client connection_string s =
   (Raise (mkExn TypeError [txt "Connection string must be a string, got ";
                            Text (lit "NoneType")]),
    set_world s (load_dotenv (world s)))) /\
  (truthy connection_string = true -> (forall u, connection_string <> PStr u) ->
   initialize_client connection_string s =
   (Raise (mkExn TypeError [txt "Connection string must be a string, got ";
                            Text (type_name connection_string)]),
    set_world s (load_dotenv (world s)))).
Proof.
  intros Hc. split.
  - intros Hf He. apply (initialize_client_rejects _ _ _ Hc).
    unfold resolve, py_or. rewrite Hf, He. reflexivity.
  - intros Ht Hn. apply (initialize_client_rejects _ _ _ Hc).
    unfold resolve, py_or. rewrite Ht.
    destruct connection_string as [|u| | |]; try reflexivity.
    exfalso. apply (Hn u). reflexivity.
Qed.

(** X8.  When the [MongoClient] constructor itself raises, no client
    is installed and the ping is not attempted.  A driver error is
    logged as FATAL and raised again; any other exception (the driver
    raises [ValueError] for a malformed port, for one) passes through
    without a log record. *)
Theorem constructor_failure_installs_nothing (connection_string : pyval) (s : state)
        (e : exn) (w1 : World) :
  _client s = None ->
  _validate_connection_string (resolve connection_string (load_dotenv (world s))) = Ok tt ->
  MongoClient (resolve connection_string (load_dotenv (world s))) (load_dotenv (world s))
  = (Raise e, w1) ->
  initialize_client connection_string s =
  (Raise e,
   {| _client := None;
      log := if existsb (issubclass (exn_cls e)) [ConnectionFailure; PyMongoError]
             then log s ++ [(ERROR,
                             txt "FATAL: MongoDB connection failed during initialization: "
                                 :: exn_str e)]
             else log s;
      stdout := stdout s;
      world := w1 |}).
Proof.
  intros Hc Hv Hm. destruct s as [c l o w]; simpl in *; subst c.
  unfold initialize_client, bind, get_client, call, ask, pure, try_except, set_client,
    logging, raise, set_world; simpl.
  rewrite Hv, Hm; simpl.
  destruct (issubclass (exn_cls e) ConnectionFailure || (issubclass (exn_cls e) PyMongoError || false));
    reflexivity.
Qed.

(** X9.  When the ping raises an exception that is not a driver error,
    the [except] clause does not apply: the exception passes through
    unlogged and the client that was just created stays installed, so
    the next [initialize_client] takes it for a working client and
    returns without connecting. *)
Theorem foreign_ping_failure_keeps_client (connection_string : pyval) (s : state)
        (cl : Client) (e : exn) (w1 w2 : World) :
  _client s = None ->
  _validate_connection_string (resolve connection_string (load_dotenv (world s))) = Ok tt ->
  MongoClient (resolve connection_string (load_dotenv (world s))) (load_dotenv (world s))
  = (Ok cl, w1) ->
  admin_command_ping cl w1 = (Raise e, w2) ->
  existsb (issubclass (exn_cls e)) [ConnectionFailure; PyMongoError] = false ->
  let s' := {| _client := Some cl; log := log s; stdout := stdout s; world := w2 |} in
  initialize_client connection_string s = (Raise e, s') /\
  forall again,
    initialize_client again s' =
    (Ok tt, {| _client := Some cl;
               log := log s ++ [(INFO, [txt "MongoDB client already initialized."])];
               stdout := stdout s; world := w2 |}).
Proof.
  intros Hc Hv Hm Hp He. destruct s as [c l o w]; simpl in *; subst c.
  split; [|reflexivity].
  unfold initialize_client, bind, get_client, call, ask, pure, try_except, set_client,
    logging, raise, set_world; simpl.
  rewrite Hv, Hm; simpl. rewrite Hp; simpl. rewrite He. reflexivity.
Qed.

(** X10.  When the driver's [close] raises, [close_client] lets the
    exception through before it clears anything: the client stays
    installed and no closure is logged. *)
Theorem close_failure_keeps_client (s : state) (cl : Client) (e : exn) (w' : World) :
  _client s = Some cl ->
  MongoClient_close cl (world s) = (Raise e, w') ->
  close_client s = (Raise e, set_world s w') /\
  _client (snd (close_client s)) = Some cl /\
  log (snd (close_client s)) = log s.
Proof.
  intros Hc Hw.
  assert (E : close_client s = (Raise e, set_world s w')).
  { destruct s as [c l o w]; simpl in *; subst c.
    unfold close_client, bind, get_client, call, set_world; simpl.
    rewrite Hw. reflexivity. }
  rewrite E. split; [reflexivity|]. split; [exact Hc|reflexivity].
Qed.

(** X11.  After a [close_client] that returned, the class is back at
    its initial condition: constructing a manager raises
    [RuntimeError] again, and [initialize_client] connects anew instead
    of reporting an existing client. *)
Theorem after_close_starts_over (s : state) (cl : Client) (w' : World) :
  _client s = Some cl ->
  MongoClient_close cl (world s) = (Ok tt, w') ->
  exists s1,
    close_client s = (Ok tt, s1) /\ world s1 = w' /\
    (forall db_name collection_name,
        exists e, __init__ db_name collection_name s1 = (Raise e, s1) /\
                  exn_cls e = RuntimeError) /\
    (forall connection_string cl' w1 w2,
        _validate_connection_string (resolve connection_string (load_dotenv w')) = Ok tt ->
        MongoClient (resolve connection_string (load_dotenv w')) (load_dotenv w')
        = (Ok cl', w1) ->
        admin_command_ping cl' w1 = (Ok tt, w2) ->
        exists s2, initialize_client connection_string s1 = (Ok tt, s2) /\
                   _client s2 = Some cl' /\ world s2 = w2).
Proof.
  intros Hc Hw. eexists. split; [apply (close_client_returns s cl w' Hc Hw)|].
  split; [reflexivity|]. split.
  - intros d c. eexists. split; reflexivity.
  - intros cs cl' w1 w2 Hv Hm Hp. eexists. split.
    + apply (initialize_client_connects cs _ cl' w1 w2); [reflexivity|exact Hv|exact Hm|exact Hp].
    + split; reflexivity.
Qed.

(** X12.  [__init__] leaves no trace when it raises, and when it
    returns the state differs by one INFO record only; the instance
    then carries the two names as given, both names have passed
    [_validate_name], and its [db] and [collection] are what the
    installed client and its database gave for them. *)
Theorem init_outcome (for_db for_collection : pyval) (s : state) :
  (forall e s', __init__ for_db for_collection s = (Raise e, s') -> s' = s) /\
  (forall m s',
      __init__ for_db for_collection s = (Ok m, s') ->
      exists cl,
        _client s = Some cl /\
        _validate_name for_db (lit "Database") = Ok tt /\
        _validate_name for_collection (lit "Collection") = Ok tt /\
        MongoClient_getitem cl for_db = Ok (db m) /\
        Database_getitem (db m) for_collection = Ok (collection m) /\
        db_name m = for_db /\ collection_name m = for_collection /\
        s' = {| _client := _client s;
                log := log s ++ [(INFO, [txt "MongoDBManager instance created DB: '";
                                         Value for_db; txt "', Collection: '";
                                         Value for_collection; txt "'"])];
                stdout := stdout s; world := world s |}).
Proof.
  destruct s as [[cl|] l o w]; unfold __init__, bind, get_client, pure, raise, logging, ret;
    simpl.
  - destruct (_validate_name for_db (lit "Database")) as [[]|e1] eqn:E1;
      [|split; [intros ? ? [= _ <-]; reflexivity|discriminate]].
    destruct (_validate_name for_collection (lit "Collection")) as [[]|e2] eqn:E2;
      [|split; [intros ? ? [= _ <-]; reflexivity|discriminate]].
    destruct (MongoClient_getitem cl for_db) as [d|e3] eqn:E3;
      [|split; [intros ? ? [= _ <-]; reflexivity|discriminate]].
    destruct (Database_getitem d for_collection) as [c|e4] eqn:E4;
      [|split; [intros ? ? [= _ <-]; reflexivity|discriminate]].
    split; [discriminate|].
    intros m s' [= <- <-]. exists cl. simpl. repeat split; assumption || reflexivity.
  - split; [intros ? ? [= _ <-]; reflexivity|discriminate].
Qed.

(** X13.  With a client installed, [__init__] checks the database name
    first: its error is the one raised whatever the collection name is;
    the collection name's error is raised only for a valid database
    name; and names that pass both checks can still be refused by the
    driver, whose exception then passes through. *)
Theorem init_validation_order (for_db for_collection : pyval) (s : state) (cl : Client) :
  _client s = Some cl ->
  (forall e, _validate_name for_db (lit "Database") = Raise e ->
             __init__ for_db for_collection s = (Raise e, s)) /\
  (forall e, _validate_name for_db (lit "Database") = Ok tt ->
             _validate_name for_collection (lit "Collection") = Raise e ->
             __init__ for_db for_collection s = (Raise e, s)) /\
  (forall e, _validate_name for_db (lit "Database") = Ok tt ->
             _validate_name for_collection (lit "Collection") = Ok tt ->
             MongoClient_getitem cl for_db = Raise e ->
             __init__ for_db for_collection s = (Raise e, s)).
Proof.
  intros Hc. destruct s as [c l o w]; simpl in *; subst c.
  unfold __init__, bind, get_client, pure; simpl.
  split; [|split].
  - intros e ->. reflexivity.
  - intros e -> ->. reflexivity.
  - intros e -> -> ->. reflexivity.
Qed.

End LifecycleMore.

(** ** More of the collection accessor *)

Section CrudMore.
Context {C : Collaborators}.

(** X14.  [find_many] replaces every falsy filter ([None], the empty
    [dict], but also an empty string or list) by the empty [dict], which
    matches everything, and hands every truthy filter to the driver as
    it is. *)
Theorem find_many_default_filter (self : MongoDBManager) (filter_dict : pyval) (s : state) :
  (truthy filter_dict = false ->
   find_many self filter_dict s = find_many self (PDict []) s /\
   find_many self filter_dict s = call (Collection_find (collection self) (PDict [])) s) /\
  (truthy filter_dict = true ->
   find_many self filter_dict s = call (Collection_find (collection self) filter_dict) s).
Proof.
  unfold find_many, py_or. split; intros ->; [split|]; reflexivity.
Qed.

(** X15.  A [False] result does not mean that nothing was written:
    when the driver has stored the document and rendering the summary
    then raises, [insert_document] still answers [(False, None)], with
    the world as the insertion left it, the first four lines of the
    summary printed, and the rendering error logged. *)
Theorem insert_document_false_after_write (self : MongoDBManager) (items : list (pyval * pyval))
        (s : state) (r : InsertOneResult) (w1 : World) (e : exn) :
  Collection_insert_one (collection self) (PDict items) (world s) = (Ok r, w1) ->
  json_dumps (PDict items) w1 = Raise e ->
  printable w1 [[txt "=== SINGLE DOCUMENT INSERTED ==="];
                [txt "Database: "; Value (db_name self)];
                [txt "Collection: "; Value (collection_name self)];
                [txt "Created Data:"];
                txt "Error inserting data: " :: exn_str e] ->
  insert_document self (PDict items) s =
  (Ok (false, PNone),
   {| _client := _client s;
      log := log s ++ [(ERROR, txt "Error inserting data: " :: exn_str e)];
      stdout := stdout s ++ [[txt "=== SINGLE DOCUMENT INSERTED ==="];
                             [txt "Database: "; Value (db_name self)];
                             [txt "Collection: "; Value (collection_name self)];
                             [txt "Created Data:"];
                             txt "Error inserting data: " :: exn_str e];
      world := w1 |}).
Proof.
  intros H J P. unfold insert_document. rewrite try_except_Exception.
  destruct s as [c l o w]; simpl in *.
  unfold bind, call, print_created, bind, print, set_world; simpl.
  rewrite H; simpl.
  rewrite (P [txt "=== SINGLE DOCUMENT INSERTED ==="]) by (simpl; tauto); simpl.
  rewrite (P [txt "Database: "; Value (db_name self)]) by (simpl; tauto); simpl.
  rewrite (P [txt "Collection: "; Value (collection_name self)]) by (simpl; tauto); simpl.
  rewrite (P [txt "Created Data:"]) by (simpl; tauto); simpl.
  rewrite J. unfold logging, ret; simpl.
  rewrite (P (txt "Error inserting data: " :: exn_str e)) by (simpl; tauto).
  rewrite <- !app_assoc. reflexivity.
Qed.

(** X16.  [insert_document] never makes up an acknowledgement: when the
    first component of its result is [True], the data was a [dict] or a
    [list], the driver's insertion returned a result whose
    [acknowledged] is [True], and the second component is that result's
    id or ids. *)
Theorem insert_document_true_is_acknowledged (self : MongoDBManager) (data : pyval)
        (s s' : state) (ids : pyval) :
  insert_document self data s = (Ok (true, ids), s') ->
  (exists items r w1,
      data = PDict items /\
      Collection_insert_one (collection self) data (world s) = (Ok r, w1) /\
      one_acknowledged r = true /\ ids = inserted_id r /\ world s' = w1) \/
  (exists elems r w1,
      data = PList elems /\
      Collection_insert_many (collection self) data (world s) = (Ok r, w1) /\
      many_acknowledged r = true /\ ids = PList (inserted_ids r) /\ world s' = w1).
Proof.
  assert (K : forall e s0,
             (logging ERROR (txt "Error inserting data: " :: exn_str e) ;;
              print (txt "Error inserting data: " :: exn_str e) ;;
              ret (false, PNone)) s0 <> (Ok (true, ids), s')).
  { intros e s0. rewrite insert_handler_run.
    destruct (print_error _ (world s0)); discriminate. }
  unfold insert_document. rewrite try_except_Exception.
  destruct data as [|u|items|elems|n b];
    try (unfold bind at 1;
         match goal with |- context [print ?m s] =>
                         destruct (print m s) as [[[]|e] s1] end;
         [unfold ret; discriminate|intros F; exfalso; revert F; apply K]).
  - unfold bind at 1, call.
    destruct (Collection_insert_one (collection self) (PDict items) (world s))
      as [[r|e] w1] eqn:H; [|intros F; exfalso; revert F; apply K].
    unfold bind at 1.
    destruct (print_created "=== SINGLE DOCUMENT INSERTED ===" self (PDict items)
                            (set_world s w1)) as [[[]|e] s1] eqn:P;
      [|intros F; exfalso; revert F; apply K].
    unfold ret. intros [= A <- <-]. left. exists items, r, w1.
    repeat split; try assumption.
    apply print_created_frame in P. apply P.
  - unfold bind at 1, call.
    destruct (Collection_insert_many (collection self) (PList elems) (world s))
      as [[r|e] w1] eqn:H; [|intros F; exfalso; revert F; apply K].
    unfold bind at 1.
    destruct (print_created "=== MULTIPLE DOCUMENTS INSERTION ===" self (PList elems)
                            (set_world s w1)) as [[[]|e] s1] eqn:P;
      [|intros F; exfalso; revert F; apply K].
    unfold ret. intros [= A <- <-]. right. exists elems, r, w1.
    repeat split; try assumption.
    apply print_created_frame in P. apply P.
Qed.

End CrudMore.

(** ** The script *)

Section ScriptFacts.
Context {C : Collaborators}.


Lemma driver_error_not_validation (e : exn) :
  existsb (issubclass (exn_cls e)) [ConnectionFailure; PyMongoError] = true ->
  existsb (issubclass (exn_cls e)) [TypeError; ValueError] = false.
Proof. destruct e as [[] m]; simpl; intros H; reflexivity || discriminate H. Qed.


(** X18.  Run without configuration (no client installed, the variable
    unset even after [load_dotenv]), the script makes no driver call at
    all: it logs its start and one validation error about [NoneType],
    and ends normally. *)
Theorem main_without_configuration (s : state) :
  _client s = None ->
  os_getenv (lit "MONGO_DB_CONNECTION_STRING") (load_dotenv (world s)) = None ->
  main s =
  (Ok tt,
   {| _client := None;
      log := log s ++ [(INFO, [txt "Starting application..."]);
                       (ERROR, [txt "Validation error: ";
                                txt "Connection string must be a string, got ";
                                Text (lit "NoneType")])];
      stdout := stdout s;
      world := load_dotenv (world s) |}).
Proof.
  intros Hc He. destruct s as [c l o w]; simpl in *; subst c.
  unfold main, bind at 1, logging at 1, try_except_finally, main_body, bind at 1.
  rewrite initialize_client_rejects with
    (e := mkExn TypeError [txt "Connection string must be a string, got ";
                           Text (lit "NoneType")]);
    [|reflexivity|simpl; unfold resolve; rewrite He; reflexivity].
  simpl. rewrite <- app_assoc. reflexivity.
Qed.

(** X19.  Run against a server that does not answer the ping with a
    driver error, the script logs the FATAL record of
    [initialize_client] and then the same error as an application
    error, attempts no insertion, and ends normally with no client
    installed. *)
Theorem main_server_unreachable (s : state) (cl : Client) (e : exn) (w1 w2 : World) :
  _client s = None ->
  _validate_connection_string (resolve PNone (load_dotenv (world s))) = Ok tt ->
  MongoClient (resolve PNone (load_dotenv (world s))) (load_dotenv (world s)) = (Ok cl, w1) ->
  admin_command_ping cl w1 = (Raise e, w2) ->
  existsb (issubclass (exn_cls e)) [ConnectionFailure; PyMongoError] = true ->
  main s =
  (Ok tt,
   {| _client := None;
      log := log s ++ [(INFO, [txt "Starting application..."]);
                       (ERROR, txt "FATAL: MongoDB connection failed during initialization: "
                                   :: exn_str e);
                       (ERROR, txt "Application error: " :: exn_str e)];
      stdout := stdout s;
      world := w2 |}).
Proof.
  intros Hc Hv Hm Hp He. destruct s as [c l o w]; simpl in *; subst c.
  pose proof (driver_error_not_validation e He) as Hn.
  unfold main, bind at 1, logging at 1, try_except_finally, main_body, bind at 1.
  unfold initialize_client, bind, get_client, call, ask, pure, try_except, set_client,
    logging, raise, set_world; simpl.
  rewrite Hv, Hm; simpl. rewrite Hp. simpl in He, Hn. rewrite He, Hn.
  rewrite issubclass_Exception. simpl. rewrite <- !app_assoc. reflexivity.
Qed.

End ScriptFacts.

(** ** [insert_data_mongo] *)

Section ConnectMongoFacts.
Context {C : Collaborators} {L : Listing}.

Lemma printable_app (w : World) (xs ys : list message) :
  printable w (xs ++ ys) <-> printable w xs /\ printable w ys.
Proof.
  unfold printable. split.
  - intros H. split; intros m Hm; apply H, in_or_app; tauto.
  - intros [H1 H2] m Hm. apply in_app_or in Hm. destruct Hm; auto.
Qed.

Lemma for_each_print {A} (xs : list A) (line : A -> message) (s : state) :
  printable (world s) (map line xs) ->
  for_each xs (fun x => print (line x)) s =
  (Ok tt, {| _client := _client s; log := log s;
             stdout := stdout s ++ map line xs; world := world s |}).
Proof.
  revert s. induction xs as [|x xs IH]; intros [c l o w] P; simpl in *.
  - rewrite app_nil_r. reflexivity.
  - unfold bind. rewrite print_ok by (apply P; left; reflexivity). simpl.
    rewrite IH by (intros m Hm; apply P; right; exact Hm).
    simpl. rewrite <- app_assoc. reflexivity.
Qed.

(** The common prefix of every run: connect, bind the collection, list
    and print the database names. *)
Lemma insert_data_mongo_prefix (conn_str for_db for_collection data : pyval) (s : state)
      (client : Client) (w1 w2 : World) (d : Database) (c : Collection) (names : list str) :
  MongoClient conn_str (world s) = (Ok client, w1) ->
  MongoClient_getitem client for_db = Ok d ->
  Database_getitem d for_collection = Ok c ->
  MongoClient_list_database_names client w1 = (Ok names, w2) ->
  printable w2 (map (fun n => [Value (PStr n)]) names) ->
  insert_data_mongo conn_str for_db for_collection data s =
  let s1 := {| _client := _client s; log := log s;
               stdout := stdout s ++ map (fun n => [Value (PStr n)]) names;
               world := w2 |} in
  match data with
  | PDict _ =>
      (result <- call (Collection_insert_one c data) ;;
       print [txt "Inserted 1 document."] ;;
       inserted_docs <- call (Collection_find_one c
                                (PDict [(PStr (lit "_id"), inserted_id result)])) ;;
       print [Value inserted_docs] ;;
       ret inserted_docs) s1
  | PList _ =>
      (result <- call (Collection_insert_many c data) ;;
       print [txt "Inserted "; Text (str_of_nat (len (inserted_ids result)));
              txt " documents."] ;;
       cursor <- call (Collection_find c
                         (PDict [(PStr (lit "_id"),
                                  PDict [(PStr (lit "$in"), PList (inserted_ids result))])])) ;;
       inserted_docs <- call (Cursor_list cursor) ;;
       for_each inserted_docs (fun doc => print [Value doc]) ;;
       ret (PList inserted_docs)) s1
  | _ =>
      (print [txt "Data must be a dictionary or a list of dictionaries."] ;;
       ret PNone) s1
  end.
Proof.
  intros Hm Hd Hc Hl P. destruct s as [cl l o w]; simpl in *.
  unfold insert_data_mongo.
  unfold bind at 1, call at 1; simpl. rewrite Hm.
  unfold bind at 1, pure at 1. rewrite Hd.
  unfold bind at 1, pure at 1. rewrite Hc.
  unfold bind at 1, call at 1; simpl. rewrite Hl.
  unfold bind at 1. rewrite for_each_print by exact P. simpl.
  destruct data; reflexivity.
Qed.

(** X20.  On data that is neither a [dict] nor a [list],
    [insert_data_mongo] returns [None] without raising, but only after
    it has opened a connection and listed and printed the database
    names; it logs nothing and does not touch the class's client. *)
Theorem insert_data_mongo_other_data (conn_str for_db for_collection data : pyval)
        (s : state) (client : Client) (w1 w2 : World) (d : Database) (c : Collection)
        (names : list str) :
  (forall items, data <> PDict items) -> (forall elems, data <> PList elems) ->
  MongoClient conn_str (world s) = (Ok client, w1) ->
  MongoClient_getitem client for_db = Ok d ->
  Database_getitem d for_collection = Ok c ->
  MongoClient_list_database_names client w1 = (Ok names, w2) ->
  printable w2 (map (fun n => [Value (PStr n)]) names
                    ++ [[txt "Data must be a dictionary or a list of dictionaries."]]) ->
  insert_data_mongo conn_str for_db for_collection data s =
  (Ok PNone,
   {| _client := _client s; log := log s;
      stdout := stdout s ++ map (fun n => [Value (PStr n)]) names
                         ++ [[txt "Data must be a dictionary or a list of dictionaries."]];
      world := w2 |}).
Proof.
  intros Nd Nl Hm Hd Hc Hl P. apply printable_app in P as [Pn Pm].
  rewrite (insert_data_mongo_prefix _ _ _ data s client w1 w2 d c names Hm Hd Hc Hl Pn).
  destruct data as [|u|items|elems|n b];
    try (exfalso; eapply Nd; reflexivity); try (exfalso; eapply Nl; reflexivity);
    simpl; unfold bind; rewrite print_ok by (apply Pm; left; reflexivity);
    unfold ret; simpl; rewrite <- app_assoc; reflexivity.
Qed.

(** X21.  [insert_data_mongo] has no handler: an exception of the
    connection, or of the insertion of a [dict] or a [list], reaches the
    caller as it is (where [insert_document] would answer
    [(False, None)]), and nothing is logged. *)
Theorem insert_data_mongo_failures_propagate (conn_str for_db for_collection data : pyval)
        (s : state) (e : exn) :
  (forall w1, MongoClient conn_str (world s) = (Raise e, w1) ->
              insert_data_mongo conn_str for_db for_collection data s
              = (Raise e, set_world s w1)) /\
  (forall client w1 w2 w3 d c names,
      MongoClient conn_str (world s) = (Ok client, w1) ->
      MongoClient_getitem client for_db = Ok d ->
      Database_getitem d for_collection = Ok c ->
      MongoClient_list_database_names client w1 = (Ok names, w2) ->
      printable w2 (map (fun n => [Value (PStr n)]) names) ->
      (exists items, data = PDict items) /\
      Collection_insert_one c data w2 = (Raise e, w3) \/
      (exists elems, data = PList elems) /\
      Collection_insert_many c data w2 = (Raise e, w3) ->
      insert_data_mongo conn_str for_db for_collection data s =
      (Raise e,
       {| _client := _client s; log := log s;
          stdout := stdout s ++ map (fun n => [Value (PStr n)]) names;
          world := w3 |})).
Proof.
  split.
  - intros w1 Hm. unfold insert_data_mongo, bind at 1, call at 1. rewrite Hm. reflexivity.
  - intros client w1 w2 w3 d c names Hm Hd Hc Hl P H.
    rewrite (insert_data_mongo_prefix _ _ _ data s client w1 w2 d c names Hm Hd Hc Hl P).
    destruct H as [[(items & ->) H]|[(elems & ->) H]];
      simpl; unfold bind at 1, call at 1; simpl; rewrite H; reflexivity.
Qed.

(** X22.  What [insert_data_mongo] returns after a successful
    insertion is what the driver reads back, not what was passed in: for
    a [dict], the answer of [find_one] to the filter on the inserted id
    (which may be [None]); for a [list], the documents the cursor of the
    [$in] query on the inserted ids yields, after a line that counts
    those ids. *)
Theorem insert_data_mongo_reads_back (conn_str for_db for_collection : pyval) (s : state)
        (client : Client) (w1 w2 : World) (d : Database) (c : Collection)
        (names : list str) :
  MongoClient conn_str (world s) = (Ok client, w1) ->
  MongoClient_getitem client for_db = Ok d ->
  Database_getitem d for_collection = Ok c ->
  MongoClient_list_database_names client w1 = (Ok names, w2) ->
  printable w2 (map (fun n => [Value (PStr n)]) names) ->
  (forall items r doc w3 w4,
      Collection_insert_one c (PDict items) w2 = (Ok r, w3) ->
      Collection_find_one c (PDict [(PStr (lit "_id"), inserted_id r)]) w3 = (Ok doc, w4) ->
      printable w3 [[txt "Inserted 1 document."]] ->
      printable w4 [[Value doc]] ->
      insert_data_mongo conn_str for_db for_collection (PDict items) s =
      (Ok doc,
       {| _client := _client s; log := log s;
          stdout := stdout s ++ map (fun n => [Value (PStr n)]) names
                             ++ [[txt "Inserted 1 document."]; [Value doc]];
          world := w4 |})) /\
  (forall elems r cursor docs w3 w4 w5,
      Collection_insert_many c (PList elems) w2 = (Ok r, w3) ->
      Collection_find c (PDict [(PStr (lit "_id"),
                                 PDict [(PStr (lit "$in"), PList (inserted_ids r))])]) w3
      = (Ok cursor, w4) ->
      Cursor_list cursor w4 = (Ok docs, w5) ->
      printable w3 [[txt "Inserted "; Text (str_of_nat (len (inserted_ids r)));
                     txt " documents."]] ->
      printable w5 (map (fun doc => [Value doc]) docs) ->
      insert_data_mongo conn_str for_db for_collection (PList elems) s =
      (Ok (PList docs),
       {| _client := _client s; log := log s;
          stdout := stdout s ++ map (fun n => [Value (PStr n)]) names
                             ++ [[txt "Inserted "; Text (str_of_nat (len (inserted_ids r)));
                                  txt " documents."]]
                             ++ map (fun doc => [Value doc]) docs;
          world := w5 |})).
Proof.
  intros Hm Hd Hc Hl P. split.
  - intros items r doc w3 w4 Hi Hf P3 P4.
    rewrite (insert_data_mongo_prefix _ _ _ _ s client w1 w2 d c names Hm Hd Hc Hl P).
    simpl. unfold bind at 1, call at 1; simpl. rewrite Hi.
    unfold bind at 1. rewrite print_ok by (apply P3; left; reflexivity).
    unfold bind at 1, call at 1; simpl. rewrite Hf.
    unfold bind at 1. rewrite print_ok by (apply P4; left; reflexivity).
    unfold ret; simpl. rewrite <- !app_assoc. reflexivity.
  - intros elems r cursor docs w3 w4 w5 Hi Hf Hk P3 P5.
    rewrite (insert_data_mongo_prefix _ _ _ _ s client w1 w2 d c names Hm Hd Hc Hl P).
    simpl. unfold bind at 1, call at 1; simpl. rewrite Hi.
    unfold bind at 1. rewrite print_ok by (apply P3; left; reflexivity).
    unfold bind at 1, call at 1; simpl. rewrite Hf.
    unfold bind at 1, call at 1; simpl. rewrite Hk.
    unfold bind at 1. rewrite for_each_print by exact P5. simpl.
    rewrite <- !app_assoc. reflexivity.
Qed.

End ConnectMongoFacts.

(** ** Further runs on the test doubles *)

Section MoreRuns.
Import Fake FakeListing.

Lemma initialize_client_invalid_string_witness :
  initialize_client (PStr (lit "localhost:27017")) (start true (Some uri))
  = (Raise (mkExn ValueError
              [txt "Connection string must start with 'mongodb://' or 'mongodb+srv://'"]),
     start true (Some uri)).
Proof.
  apply (initialize_client_invalid_string (PStr (lit "localhost:27017")) (start true (Some uri))).
  - reflexivity.
  - reflexivity.
Defined.

Lemma initialize_client_resolution_witness :
  initialize_client (PStr []) (start true None)
  = (Raise (mkExn TypeError [txt "Connection string must be a string, got ";
                             Text (lit "NoneType")]),
     start true None) /\
  initialize_client forty_two (start true (Some uri))
  = (Raise (mkExn TypeError [txt "Connection string must be a string, got ";
                             Text (lit "int")]),
     start true (Some uri)).
Proof.
  split.
  - apply (proj1 (initialize_client_resolution (PStr []) (start true None) eq_refl));
      reflexivity.
  - apply (proj2 (initialize_client_resolution forty_two (start true (Some uri)) eq_refl)).
    + reflexivity.
    + intros u; discriminate.
Defined.

Lemma constructor_failure_installs_nothing_witness :
  exists s', initialize_client PNone (Faulty.start Faulty.broken_connect (Some uri))
             = (Raise Faulty.bad_port, s') /\
             _client s' = None /\ log s' = [].
Proof.
  eexists. split.
  - apply (constructor_failure_installs_nothing
             PNone (Faulty.start Faulty.broken_connect (Some uri)) Faulty.bad_port
             (boot true (Some uri))).
    + reflexivity.
    + reflexivity.
    + reflexivity.
  - split; reflexivity.
Defined.

Lemma foreign_ping_failure_keeps_client_witness :
  exists s', initialize_client PNone (Faulty.start Faulty.broken_ping (Some uri))
             = (Raise Faulty.interrupted, s') /\
             _client s' = Some 0%nat /\
             fst (initialize_client PNone s') = Ok tt.
Proof.
  edestruct (foreign_ping_failure_keeps_client
               PNone (Faulty.start Faulty.broken_ping (Some uri))) as (E & A).
  - reflexivity.
  - reflexivity.
  - reflexivity.
  - reflexivity.
  - reflexivity.
  - eexists. split; [exact E|]. split; [reflexivity|]. rewrite A. reflexivity.
Defined.

Lemma close_failure_keeps_client_witness :
  close_client (Faulty.connected Faulty.broken_close)
  = (Raise Faulty.interrupted, Faulty.connected Faulty.broken_close).
Proof.
  apply (close_failure_keeps_client (Faulty.connected Faulty.broken_close) 0%nat
                                    Faulty.interrupted (boot true None)).
  - reflexivity.
  - reflexivity.
Defined.

Lemma after_close_starts_over_witness :
  exists s1, close_client (connected (boot true (Some uri))) = (Ok tt, s1) /\
             (exists e, __init__ (PStr (lit "test_db")) (PStr (lit "users")) s1
                        = (Raise e, s1) /\ exn_cls e = RuntimeError) /\
             exists s2, initialize_client PNone s1 = (Ok tt, s2) /\ _client s2 = Some 0%nat.
Proof.
  edestruct (after_close_starts_over (connected (boot true (Some uri))))
    as (s1 & E & W & I & R).
  - reflexivity.
  - reflexivity.
  - exists s1. split; [exact E|]. split; [apply I|].
    edestruct (R PNone) as (s2 & E2 & C2 & _).
    + reflexivity.
    + reflexivity.
    + reflexivity.
    + exists s2. split; [exact E2|exact C2].
Defined.

Lemma init_outcome_witness :
  (exists m s', __init__ (PStr (lit "test_db")) (PStr (lit "users")) (connected (boot true None))
                = (Ok m, s') /\ db_name m = PStr (lit "test_db") /\ _client s' = Some 0%nat) /\
  snd (__init__ (PStr (lit "test db")) (PStr (lit "users")) (connected (boot true None)))
  = connected (boot true None).
Proof.
  split.
  - edestruct (proj2 (init_outcome (PStr (lit "test_db")) (PStr (lit "users"))
                                   (connected (boot true None))))
      as (cl & _ & _ & _ & _ & _ & D & _ & S).
    + reflexivity.
    + eexists. eexists. split; [reflexivity|]. split; [exact D|]. rewrite S. reflexivity.
  - apply (proj1 (init_outcome (PStr (lit "test db")) (PStr (lit "users"))
                               (connected (boot true None)))
                 (mkExn ValueError [Text (lit "Database"); txt " name cannot contain '";
                                    Text (lit " "); txt "'"])).
    reflexivity.
Defined.

Lemma init_validation_order_witness :
  (exists e, __init__ (PStr (lit "my.db")) (PStr (lit "us$ers")) (connected (boot true None))
             = (Raise e, connected (boot true None)) /\
             exn_str e = [Text (lit "Database"); txt " name cannot contain '";
                          Text (lit "."); txt "'"]) /\
  (exists e, __init__ (PStr (lit "my_db")) (PStr (lit "us$ers")) (connected (boot true None))
             = (Raise e, connected (boot true None)) /\
             exn_str e = [Text (lit "Collection"); txt " name cannot contain '";
                          Text (lit "$"); txt "'"]).
Proof.
  split.
  - eexists. split.
    + apply (proj1 (init_validation_order (PStr (lit "my.db")) (PStr (lit "us$ers"))
                                          (connected (boot true None)) 0%nat eq_refl)).
      reflexivity.
    + reflexivity.
  - eexists. split.
    + apply (proj1 (proj2 (init_validation_order (PStr (lit "my_db")) (PStr (lit "us$ers"))
                                                 (connected (boot true None)) 0%nat eq_refl))).
      * reflexivity.
      * reflexivity.
    + reflexivity.
Defined.

Lemma find_many_default_filter_witness :
  find_many users (PStr []) (connected (boot true None))
  = find_many users (PDict []) (connected (boot true None)) /\
  find_many users jack (connected (boot true None))
  = call (Collection_find (collection users) jack) (connected (boot true None)).
Proof.
  split.
  - apply (proj1 (find_many_default_filter users (PStr []) (connected (boot true None)))).
    reflexivity.
  - apply (proj2 (find_many_default_filter users jack (connected (boot true None)))).
    reflexivity.
Defined.

Lemma insert_document_false_after_write_witness :
  exists s', insert_document (Faulty.users Faulty.broken_dumps) jack
                             (Faulty.connected Faulty.broken_dumps)
             = (Ok (false, PNone), s') /\
             stored (world s') = [jack].
Proof.
  eexists. split.
  - apply (insert_document_false_after_write
             (Faulty.users Faulty.broken_dumps)
             [(PStr (lit "name"), PStr (lit "Jack"))]
             (Faulty.connected Faulty.broken_dumps)
             {| one_acknowledged := true; inserted_id := ObjectId |}
             (put (boot true None) [jack]) Faulty.not_serializable).
    + reflexivity.
    + reflexivity.
    + intros m _. reflexivity.
  - reflexivity.
Defined.

Lemma insert_document_true_is_acknowledged_witness :
  exists r w1,
    Collection_insert_one (collection users) jack (boot true None) = (Ok r, w1) /\
    one_acknowledged r = true /\ inserted_id r = ObjectId.
Proof.
  destruct (insert_document_true_is_acknowledged
              users jack (connected (boot true None))
              (snd (insert_document users jack (connected (boot true None))))
              ObjectId eq_refl)
    as [(items & r & w1 & _ & H & A & I & _)|(elems & r & w1 & D & _)].
  - exists r, w1. split; [exact H|]. split; [exact A|symmetry; exact I].
  - discriminate D.
Defined.


Lemma main_without_configuration_witness :
  exists s', main (start true None) = (Ok tt, s') /\ world s' = boot true None /\
             len (log s') = 2%nat.
Proof.
  eexists. split.
  - apply (main_without_configuration (start true None)); reflexivity.
  - split; reflexivity.
Defined.

Lemma main_server_unreachable_witness :
  exists s', main (start false (Some uri)) = (Ok tt, s') /\ _client s' = None /\
             stored (world s') = [] /\ len (log s') = 3%nat.
Proof.
  eexists. split.
  - eapply (main_server_unreachable (start false (Some uri)) 0%nat down).
    + reflexivity.
    + reflexivity.
    + reflexivity.
    + reflexivity.
    + reflexivity.
  - repeat split.
Defined.

Lemma insert_data_mongo_other_data_witness :
  exists s', insert_data_mongo (PStr uri) (PStr (lit "student_db")) (PStr (lit "students"))
                               forty_two (start true None) = (Ok PNone, s') /\
             created (world s') = 1%nat /\ len (stdout s') = 3%nat.
Proof.
  eexists. split.
  - eapply (insert_data_mongo_other_data
             (PStr uri) (PStr (lit "student_db")) (PStr (lit "students")) forty_two
             (start true None) 0%nat).
    + intros items; discriminate.
    + intros elems; discriminate.
    + reflexivity.
    + reflexivity.
    + reflexivity.
    + reflexivity.
    + intros m _. reflexivity.
  - split; reflexivity.
Defined.

Lemma insert_data_mongo_failures_propagate_witness :
  fst (insert_data_mongo (PStr uri) (PStr (lit "student_db")) (PStr (lit "students"))
                         (PList []) (start true None))
  = Raise (mkExn TypeError [txt "documents must be a non-empty list"]).
Proof.
  erewrite (proj2 (insert_data_mongo_failures_propagate
                     (PStr uri) (PStr (lit "student_db")) (PStr (lit "students"))
                     (PList []) (start true None)
                     (mkExn TypeError [txt "documents must be a non-empty list"]))
                  0%nat).
  - reflexivity.
  - reflexivity.
  - reflexivity.
  - reflexivity.
  - reflexivity.
  - intros m _. reflexivity.
  - right. split; [eexists; reflexivity|reflexivity].
Defined.

Lemma insert_data_mongo_reads_back_witness :
  fst (insert_data_mongo (PStr uri) (PStr (lit "student_db")) (PStr (lit "students"))
                         jack (start true None)) = Ok jack /\
  fst (insert_data_mongo (PStr uri) (PStr (lit "student_db")) (PStr (lit "students"))
                         (PList a_and_b) (start true None)) = Ok (PList a_and_b).
Proof.
  edestruct (insert_data_mongo_reads_back
               (PStr uri) (PStr (lit "student_db")) (PStr (lit "students"))
               (start true None) 0%nat) as (D & M).
  - reflexivity.
  - reflexivity.
  - reflexivity.
  - reflexivity.
  - intros m _. reflexivity.
  - split.
    + unfold jack. erewrite (D [(PStr (lit "name"), PStr (lit "Jack"))]);
        try reflexivity; intros m _; reflexivity.
    + erewrite (M a_and_b); try reflexivity; intros m _; reflexivity.
Defined.

End MoreRuns.
